(** * Access scoping of patient consultations and consents

    A shallow embedding of
    [care/facility/api/viewsets/legacy/patient_consultation.py]:
    the two view sets [PatientConsultationViewSet] and
    [PatientConsentViewSet], the query sets they build, and the custom
    actions [discharge_patient] and [patient_from_asset].

    Tables are lists of rows, a query set is the list of rows it
    evaluates to, a [Q] object is a boolean function on rows, and a view
    is a function from the request and the database to a result (a
    response, and the new database where the view writes) or to the
    exception it raises. *)

From stdpp Require Import base option list sorting strings gmap.

Local Open Scope Z_scope.

(** ** Rows

    Nullable columns and nullable foreign keys are [option]s.  A foreign
    key that a lookup path of the source travels through ([patient],
    [patient__facility], [bed]) carries the joined row; a foreign key
    that is only compared carries the primary key. *)

Module Facility.
Record t := mk {
  id : Z;
  state : option Z;
  district : option Z }.
End Facility.

Module Patient.
Record t := mk {
  external_id : string;
  is_active : bool;
  facility : option Facility.t;
  assigned_to : option Z }.
End Patient.

Module PatientConsultation.
Record t := mk {
  id : Z;
  external_id : string;
  patient : Patient.t;
  facility : option Z;
  assigned_to : option Z;
  current_bed : option Z;
  (* the columns the discharge serializer writes, by column name *)
  discharge_fields : gmap string string }.
End PatientConsultation.

Module Asset.
Record t := mk {
  id : Z;
  current_location : option Z }.
End Asset.

Module Bed.
Record t := mk {
  id : Z;
  external_id : string }.
End Bed.

Module AssetBed.
Record t := mk {
  id : Z;
  asset : Asset.t;
  bed : Bed.t;
  (* meta["preset_name"], absent when the JSON object has no such key *)
  meta__preset_name : option string }.
End AssetBed.

Module ConsultationBed.
Record t := mk {
  id : Z;
  bed : Bed.t;
  (* the many-to-many [assets], as the primary keys of the assets *)
  assets : list Z;
  end_date : option Z }.
End ConsultationBed.

Module PatientConsent.
Record t := mk {
  id : Z;
  external_id : string;
  consultation : Z;
  archived : bool }.
End PatientConsent.

Module User.
Record t := mk {
  id : Z;
  is_superuser : bool;
  user_type : Z;
  state : option Z;
  district : option Z;
  home_facility : option Z;
  asset : option Asset.t }.
End User.

#[global] Instance Facility_eq_dec : EqDecision Facility.t.
Proof. solve_decision. Defined.
#[global] Instance Patient_eq_dec : EqDecision Patient.t.
Proof. solve_decision. Defined.
#[global] Instance PatientConsultation_eq_dec : EqDecision PatientConsultation.t.
Proof. solve_decision. Defined.
#[global] Instance Asset_eq_dec : EqDecision Asset.t.
Proof. solve_decision. Defined.
#[global] Instance Bed_eq_dec : EqDecision Bed.t.
Proof. solve_decision. Defined.
#[global] Instance AssetBed_eq_dec : EqDecision AssetBed.t.
Proof. solve_decision. Defined.
#[global] Instance ConsultationBed_eq_dec : EqDecision ConsultationBed.t.
Proof. solve_decision. Defined.
#[global] Instance PatientConsent_eq_dec : EqDecision PatientConsent.t.
Proof. solve_decision. Defined.

(** The database: the tables the two view sets read and write.  A table
    holds the rows its default manager returns.  [asset_bed_set] is the
    many-to-many relation behind [asset.bed_set], as pairs of the primary
    keys of an asset and of a bed: the related manager does not read it
    through the default manager of [AssetBed], so it is kept apart from
    the rows of [asset_beds] and may link a bed that no such row does. *)
Record DB := mkDB {
  consultations : list PatientConsultation.t;
  consultation_beds : list ConsultationBed.t;
  asset_beds : list AssetBed.t;
  asset_bed_set : list (Z * Z);
  consents : list PatientConsent.t }.

(** ** Query sets and [Q] objects *)

Definition Q := PatientConsultation.t → bool.

(** [Q(a) & Q(b)] and [Q(a) | Q(b)].  No filter of the source negates a
    condition, so SQL's unknown behaves as false. *)
Definition Q_and (a b : Q) : Q := λ c, a c && b c.
Definition Q_or (a b : Q) : Q := λ c, a c || b c.

(** [lhs=value] with a value that may be [None]: the ORM compares with
    [=] for a value and with [IS NULL] for [None], which together are
    equality of options. *)
Definition exact {A} `{EqDecision A} (lhs value : option A) : bool :=
  bool_decide (lhs = value).

(** [lhs__in=values]: a null column is in no list. *)
Definition lookup_in (lhs : option Z) (values : list Z) : bool :=
  match lhs with
  | Some x => bool_decide (x ∈ values)
  | None => false
  end.

(** The lookup paths of [get_queryset]. *)
Definition patient__is_active (c : PatientConsultation.t) : bool :=
  Patient.is_active (PatientConsultation.patient c).
Definition patient__facility__id (c : PatientConsultation.t) : option Z :=
  Facility.id <$> Patient.facility (PatientConsultation.patient c).
Definition patient__facility__state (c : PatientConsultation.t) : option Z :=
  Patient.facility (PatientConsultation.patient c) ≫= Facility.state.
Definition patient__facility__district (c : PatientConsultation.t) : option Z :=
  Patient.facility (PatientConsultation.patient c) ≫= Facility.district.

(** [queryset.filter(q)]. *)
Definition qs_filter {A} (q : A → bool) (queryset : list A) : list A :=
  filter (λ r, q r) queryset.

(** [queryset.order_by("-id")]: greatest primary key first. *)
Definition desc {A} (pk : A → Z) : relation A := λ a b, pk b ≤ pk a.
#[global] Instance desc_dec {A} (pk : A → Z) : RelDecision (desc pk).
Proof. intros a b. unfold desc. apply _. Defined.
Definition order_by_desc {A} (pk : A → Z) (queryset : list A) : list A :=
  merge_sort (desc pk) queryset.

(** [queryset.first()]. *)
Definition first {A} (queryset : list A) : option A := head queryset.

(** ** Exceptions and results *)

Inductive Exception :=
| Http404
| NotFound (detail : string)
| PermissionDenied
| ValidationError
| DjangoValidationError
| MultipleObjectsReturned
| AttributeError.

Inductive Result (A : Type) :=
| Ok (a : A)
| Raise (e : Exception).
Arguments Ok {A} a.
Arguments Raise {A} e.

#[global] Instance Result_ret : MRet Result := λ A a, Ok a.
#[global] Instance Result_bind : MBind Result := λ A B k r,
  match r with
  | Ok a => k a
  | Raise e => Raise e
  end.

(** The status of the response the framework's exception handler builds
    for an exception a view raises.  [ValidationError] is the one of the
    REST framework; [DjangoValidationError] is
    [django.core.exceptions.ValidationError], which a field raises for a
    value it cannot convert and which the handler does not catch. *)
Definition status_of_exception (e : Exception) : Z :=
  match e with
  | Http404 | NotFound _ => 404
  | PermissionDenied => 403
  | ValidationError => 400
  | DjangoValidationError | MultipleObjectsReturned | AttributeError => 500
  end.

(** [get_object_or_404(queryset)]: the single row of the query set. *)
Definition get_object_or_404 {A} (queryset : list A) : Result A :=
  match queryset with
  | [] => Raise Http404
  | [obj] => Ok obj
  | _ => Raise MultipleObjectsReturned
  end.

(** ** Requests and responses *)

(** A number parameter as the form of the filter set cleans it: absent
    or empty, not a number, or the key it stands for. *)
Inductive Param (A : Type) :=
| Absent
| Invalid
| Valid (a : A).
Arguments Absent {A}.
Arguments Invalid {A}.
Arguments Valid {A} a.

(** What the views read of a request: the user, the cleaned values of
    the filter set's parameters ([patient] is a text, [None] when absent
    or empty; [archived] is [None] when absent or not a boolean),
    [query_params.get("preset_name", None)] and the body. *)
Record Request := mkRequest {
  user : User.t;
  params_patient : option string;
  params_facility : Param Z;
  params_archived : option bool;
  params_preset_name : option string;
  data : gmap string string }.

(** The dictionary [patient_from_asset] hands to
    [PatientConsultationIDSerializer]. *)
Record PatientConsultationID := mkPatientConsultationID {
  patient_id : string;
  consultation_id : string;
  bed_id : string;
  asset_beds_data : list AssetBed.t }.

Record Response := mkResponse {
  status : Z;
  content : option PatientConsultationID }.

Definition HTTP_200_OK : Z := 200.

(** Folding the case of the ASCII letters. *)
Definition lower_ascii (a : Ascii.ascii) : Ascii.ascii :=
  let n := Ascii.N_of_ascii a in
  if bool_decide (65 ≤ n ≤ 90)%N then Ascii.ascii_of_N (n + 32) else a.
Fixpoint lower (s : string) : string :=
  match s with
  | EmptyString => EmptyString
  | String a rest => String (lower_ascii a) (lower rest)
  end.
Fixpoint contains (haystack needle : string) : bool :=
  String.prefix needle haystack ||
  match haystack with
  | EmptyString => false
  | String _ rest => contains rest needle
  end.

(** [lhs__icontains=needle] on a text value: [UPPER(lhs) LIKE
    UPPER('%needle%')], with the [UPPER] of the database; a null value
    matches nothing. *)
Definition icontains (UPPER : string → string) (lhs : option string) (needle : string)
  : bool :=
  match lhs with
  | Some text => contains (UPPER text) (UPPER needle)
  | None => false
  end.

(** ** The access predicate of the design *)

Module Spec.
Section Predicate.
Variable StateLabAdmin DistrictLabAdmin : Z.
Variable AccessibleFacilitySet : User.t → list Z.

(** The contract [build_consultation_predicate(user)], clause by clause:
    match all for a superuser; else the state of the patient's facility
    for a tier at or above StateLabAdmin; else its district for a tier
    at or above DistrictLabAdmin; else (active patient in an accessible
    facility) or (consultation in the home facility). *)
Definition build_consultation_predicate (u : User.t) : Q := λ c,
  if User.is_superuser u then true
  else if bool_decide (StateLabAdmin ≤ User.user_type u) then
    bool_decide (patient__facility__state c = User.state u)
  else if bool_decide (DistrictLabAdmin ≤ User.user_type u) then
    bool_decide (patient__facility__district c = User.district u)
  else
    (patient__is_active c &&
     from_option (λ f, bool_decide (f ∈ AccessibleFacilitySet u)) false
                 (patient__facility__id c))
    || bool_decide (PatientConsultation.facility c = User.home_facility u).

End Predicate.
End Spec.

(** ** PatientConsultationViewSet *)

Module PatientConsultationViewSet.
Section Collaborators.

(** Defined outside this module: the table [User.TYPE_VALUE_MAP] from
    role names to tiers, the resolver [get_accessible_facilities], the
    object-level check of the permission classes (by action), the
    validation of [PatientConsultationDischargeSerializer], the
    conversion [to_python] of the UUID field of [external_id] (the
    identifier a text stands for, as the rows hold it, or [None] for a
    text that is no UUID), and the [UPPER] of the database. *)
Variable TYPE_VALUE_MAP : string → Z.
Variable get_accessible_facilities : User.t → list Z.
Variable has_object_permission : string → User.t → PatientConsultation.t → bool.
Variable is_valid : PatientConsultation.t → gmap string string → bool.
Variable to_python : string → option string.
Variable UPPER : string → string.

(** The class attribute [queryset]. *)
Definition queryset (db : DB) : list PatientConsultation.t :=
  order_by_desc PatientConsultation.id (consultations db).

(** [get_queryset].  The prefetches change what is loaded with a row,
    not which rows are selected. *)
Definition get_queryset (request : Request) (db : DB) : list PatientConsultation.t :=
  let queryset := queryset db in
  if User.is_superuser (user request) then queryset
  else if bool_decide (TYPE_VALUE_MAP "StateLabAdmin" ≤ User.user_type (user request)) then
    qs_filter (λ c, exact (patient__facility__state c) (User.state (user request)))
              queryset
  else if bool_decide (TYPE_VALUE_MAP "DistrictLabAdmin" ≤ User.user_type (user request)) then
    qs_filter (λ c, exact (patient__facility__district c) (User.district (user request)))
              queryset
  else
    let allowed_facilities := get_accessible_facilities (user request) in
    let applied_filters : Q :=
      Q_and patient__is_active
            (λ c, lookup_in (patient__facility__id c) allowed_facilities) in
    let applied_filters : Q :=
      Q_or applied_filters
           (λ c, exact (PatientConsultation.facility c)
                       (User.home_facility (user request))) in
    qs_filter applied_filters queryset.

(** [filter_queryset] with [PatientConsultationFilter]: [patient] on
    [patient__external_id], [facility] on [facility_id].  The backend
    first validates the form, and answers a parameter that is no number
    with the validation error of the REST framework; it then applies the
    filters in the order they are declared, and filtering the UUID
    column by a text that is no UUID raises. *)
Definition filter_queryset (request : Request) (queryset : list PatientConsultation.t)
  : Result (list PatientConsultation.t) :=
  match params_facility request with
  | Invalid => Raise ValidationError
  | _ =>
    queryset ←
      match params_patient request with
      | Some p =>
        match to_python p with
        | Some value =>
          Ok (qs_filter (λ c, bool_decide
                (Patient.external_id (PatientConsultation.patient c) = value)) queryset)
        | None => Raise DjangoValidationError
        end
      | None => Ok queryset
      end;
    Ok match params_facility request with
       | Valid f => qs_filter (λ c, exact (PatientConsultation.facility c) (Some f))
                              queryset
       | _ => queryset
       end
  end.

(** The generic view's [get_object]: the row of the filtered query set
    with the [external_id] of the path, then the object-level check.
    The generic view's own [get_object_or_404] answers a path value that
    the field cannot convert with the 404 exception. *)
Definition get_object (action : string) (request : Request) (external_id : string)
  (db : DB) : Result PatientConsultation.t :=
  queryset ← filter_queryset request (get_queryset request db);
  obj ← match to_python external_id with
        | Some value =>
          get_object_or_404
            (qs_filter (λ c, bool_decide (PatientConsultation.external_id c = value))
                       queryset)
        | None => Raise Http404
        end;
  if has_object_permission action (user request) obj then Ok obj
  else Raise PermissionDenied.

(** Modelled from the spec: [PatientConsultationDischargeSerializer.save],
    of [care/facility/api/serializers/patient_consultation.py].  The
    discharge fields of the row are populated from the validated payload,
    [current_bed] takes the value [save] is given, and the row is written
    back under its primary key. *)
Definition save (instance : PatientConsultation.t) (validated_data : gmap string string)
  (current_bed : option Z) (db : DB) : DB :=
  let updated :=
    PatientConsultation.mk
      (PatientConsultation.id instance)
      (PatientConsultation.external_id instance)
      (PatientConsultation.patient instance)
      (PatientConsultation.facility instance)
      (PatientConsultation.assigned_to instance)
      current_bed
      (validated_data ∪ PatientConsultation.discharge_fields instance) in
  mkDB
    ((λ row, if bool_decide (PatientConsultation.id row = PatientConsultation.id instance)
             then updated else row) <$> consultations db)
    (consultation_beds db) (asset_beds db) (asset_bed_set db) (consents db).

(** [discharge_patient]. *)
Definition discharge_patient (request : Request) (external_id : string) (db : DB)
  : Result (Response * DB) :=
  consultation ← get_object "discharge_patient" request external_id db;
  if is_valid consultation (data request) then
    let db := save consultation (data request) None db in
    Ok (mkResponse HTTP_200_OK None, db)
  else Raise ValidationError.

(** [asset.bed_set.all()]: the beds the relation links to the asset. *)
Definition bed_set (asset : Asset.t) (db : DB) : list Z :=
  snd <$> filter (λ link, link.1 = Asset.id asset) (asset_bed_set db).

(** [patient_from_asset]. *)
Definition patient_from_asset (request : Request) (db : DB) : Result Response :=
  match User.asset (user request) with
  | None => Raise AttributeError
  | Some asset =>
    let consultation_bed :=
      first (order_by_desc ConsultationBed.id
        (qs_filter (λ cb,
           (bool_decide (Asset.id asset ∈ ConsultationBed.assets cb)
            || bool_decide (Bed.id (ConsultationBed.bed cb) ∈ bed_set asset db))
           && bool_decide (ConsultationBed.end_date cb = None))
         (consultation_beds db))) in
    match consultation_bed with
    | None => Raise (NotFound "No consultation bed found for this asset")
    | Some consultation_bed =>
      let consultation :=
        first (qs_filter (λ c,
                 exact (PatientConsultation.current_bed c)
                       (Some (ConsultationBed.id consultation_bed))
                 && patient__is_active c)
               (order_by_desc PatientConsultation.id (consultations db))) in
      match consultation with
      | None => Raise (NotFound "No consultation found for this asset")
      | Some consultation =>
        let asset_beds :=
          match params_preset_name request with
          | Some preset_name =>
            if bool_decide (preset_name = "") then []
            else
              qs_filter (λ ab,
                exact (Asset.current_location (AssetBed.asset ab))
                      (Asset.current_location asset)
                && bool_decide (Bed.id (AssetBed.bed ab)
                                = Bed.id (ConsultationBed.bed consultation_bed))
                && icontains UPPER (AssetBed.meta__preset_name ab) preset_name)
              (asset_beds db)
          | None => []
          end in
        Ok (mkResponse HTTP_200_OK (Some (mkPatientConsultationID
              (Patient.external_id (PatientConsultation.patient consultation))
              (PatientConsultation.external_id consultation)
              (Bed.external_id (ConsultationBed.bed consultation_bed))
              asset_beds)))
      end
    end
  end.

(** The inherited [retrieve] and [list] (before pagination). *)
Definition retrieve (request : Request) (external_id : string) (db : DB)
  : Result PatientConsultation.t :=
  get_object "retrieve" request external_id db.
Definition list (request : Request) (db : DB) : Result (list PatientConsultation.t) :=
  filter_queryset request (get_queryset request db).

End Collaborators.
End PatientConsultationViewSet.

(** ** PatientConsentViewSet *)

(** The values of a serializer context: the generic view's [request],
    [format] and [view], and the [consultation] this view set adds. *)
Inductive ContextValue :=
| RequestValue (request : Request)
| FormatValue (format : option string)
| ViewValue
| ConsultationValue (consultation : PatientConsultation.t).

Module PatientConsentViewSet.
Section Collaborators.

(** Defined outside this module, as for the consultations, with the
    object-level check of the permission classes on a consent. *)
Variable TYPE_VALUE_MAP : string → Z.
Variable get_accessible_facilities : User.t → list Z.
Variable has_object_permission : string → User.t → PatientConsent.t → bool.
Variable to_python : string → option string.

(** Modelled from the spec: [get_consultation_queryset], of
    [care/utils/queryset/consultation.py].  The consultations that
    satisfy the consultation predicate built for the user. *)
Definition get_consultation_queryset (user : User.t) (db : DB)
  : list PatientConsultation.t :=
  qs_filter (Spec.build_consultation_predicate
               (TYPE_VALUE_MAP "StateLabAdmin") (TYPE_VALUE_MAP "DistrictLabAdmin")
               get_accessible_facilities user)
            (consultations db).

(** [get_consultation_obj], with the [consultation_external_id] of the
    path.  The filter is built before [get_object_or_404] of
    [django.shortcuts] is entered, and that one catches nothing: a path
    value that is no UUID raises the validation error of the field. *)
Definition get_consultation_obj (request : Request) (consultation_external_id : string)
  (db : DB) : Result PatientConsultation.t :=
  match to_python consultation_external_id with
  | Some value =>
    get_object_or_404
      (qs_filter (λ c, bool_decide (PatientConsultation.external_id c = value))
                 (get_consultation_queryset (user request) db))
  | None => Raise DjangoValidationError
  end.

(** [get_queryset]. *)
Definition get_queryset (request : Request) (consultation_external_id : string)
  (db : DB) : Result (list PatientConsent.t) :=
  consultation ← get_consultation_obj request consultation_external_id db;
  Ok (qs_filter (λ k, bool_decide (PatientConsent.consultation k
                                   = PatientConsultation.id consultation))
                (consents db)).

(** [filter_queryset] with [filterset_fields = ("archived",)]. *)
Definition filter_queryset (request : Request) (queryset : list PatientConsent.t)
  : list PatientConsent.t :=
  match params_archived request with
  | Some a => qs_filter (λ k, bool_decide (PatientConsent.archived k = a)) queryset
  | None => queryset
  end.

(** The inherited [retrieve], through the generic view's [get_object]
    (which answers a consent identifier that is no UUID with the 404
    exception), and [list] (before pagination). *)
Definition retrieve (request : Request) (consultation_external_id external_id : string)
  (db : DB) : Result PatientConsent.t :=
  queryset ← get_queryset request consultation_external_id db;
  obj ← match to_python external_id with
        | Some value =>
          get_object_or_404
            (qs_filter (λ k, bool_decide (PatientConsent.external_id k = value))
                       (filter_queryset request queryset))
        | None => Raise Http404
        end;
  if has_object_permission "retrieve" (user request) obj then Ok obj
  else Raise PermissionDenied.
Definition list (request : Request) (consultation_external_id : string) (db : DB)
  : Result (list PatientConsent.t) :=
  queryset ← get_queryset request consultation_external_id db;
  Ok (filter_queryset request queryset).

(** [get_serializer_context]: the generic view's context with the
    consultation of the path under ["consultation"]. *)
Definition get_serializer_context (request : Request)
  (consultation_external_id : string) (db : DB) : Result (gmap string ContextValue) :=
  let data : gmap string ContextValue :=
    {[ "request" := RequestValue request;
       "format" := FormatValue None;
       "view" := ViewValue ]} in
  consultation ← get_consultation_obj request consultation_external_id db;
  Ok (<["consultation" := ConsultationValue consultation]> data).

End Collaborators.
End PatientConsentViewSet.

(** ** Sample data

    A small database: two facilities in different states and
    districts, three consultations, one bedside monitor. *)

Definition sample_TYPE_VALUE_MAP (role : string) : Z :=
  if bool_decide (role = "StateLabAdmin") then 35
  else if bool_decide (role = "DistrictLabAdmin") then 25
  else if bool_decide (role = "Nurse") then 14
  else 0.

(** A conversion for the samples: a text of 36 characters stands for the
    identifier of the same letters in lower case. *)
Definition sample_to_python (text : string) : option string :=
  if bool_decide (String.length text = 36%nat) then Some (lower text) else None.

(** An [UPPER] for the samples: the ASCII letters in upper case. *)
Definition upper_ascii (a : Ascii.ascii) : Ascii.ascii :=
  let n := Ascii.N_of_ascii a in
  if bool_decide (97 ≤ n ≤ 122)%N then Ascii.ascii_of_N (n - 32) else a.
Fixpoint sample_UPPER (s : string) : string :=
  match s with
  | EmptyString => EmptyString
  | String a rest => String (upper_ascii a) (sample_UPPER rest)
  end.

Definition uuid_c1 : string := "c0000000-0000-4000-8000-000000000001".
Definition uuid_c2 : string := "c0000000-0000-4000-8000-000000000002".
Definition uuid_c3 : string := "c0000000-0000-4000-8000-000000000003".
Definition uuid_pa : string := "a0000000-0000-4000-8000-00000000000a".
Definition uuid_pb : string := "a0000000-0000-4000-8000-00000000000b".
Definition uuid_pc : string := "a0000000-0000-4000-8000-00000000000c".
Definition uuid_b4 : string := "b0000000-0000-4000-8000-000000000004".
Definition uuid_k1 : string := "e0000000-0000-4000-8000-000000000001".
Definition uuid_k2 : string := "e0000000-0000-4000-8000-000000000002".

Definition facility_1 : Facility.t := Facility.mk 1 (Some 10) (Some 100).
Definition facility_2 : Facility.t := Facility.mk 2 (Some 20) (Some 200).

Definition patient_a : Patient.t := Patient.mk uuid_pa true (Some facility_1) None.
Definition patient_b : Patient.t := Patient.mk uuid_pb true (Some facility_2) None.
Definition patient_c : Patient.t := Patient.mk uuid_pc false (Some facility_2) None.

Definition consultation_1 : PatientConsultation.t :=
  PatientConsultation.mk 1 uuid_c1 patient_a (Some 1) None None ∅.
Definition consultation_2 : PatientConsultation.t :=
  PatientConsultation.mk 2 uuid_c2 patient_b (Some 2) None (Some 5) ∅.
Definition consultation_3 : PatientConsultation.t :=
  PatientConsultation.mk 3 uuid_c3 patient_c (Some 2) None None ∅.

Definition monitor : Asset.t := Asset.mk 7 (Some 70).
Definition bed_4 : Bed.t := Bed.mk 4 uuid_b4.

Definition sample_db : DB :=
  mkDB [consultation_1; consultation_2; consultation_3]
       [ConsultationBed.mk 5 bed_4 [7] None]
       [AssetBed.mk 9 monitor bed_4 (Some "Left View")]
       [(7, 4)]
       [PatientConsent.mk 1 uuid_k1 1 false; PatientConsent.mk 2 uuid_k2 2 false].

(** A database with the consultations only. *)
Definition consultations_only (l : list PatientConsultation.t) : DB :=
  mkDB l [] [] [] [].

Definition superuser : User.t := User.mk 1 true 0 None None None None.
Definition state_admin : User.t := User.mk 2 false 40 (Some 10) (Some 200) (Some 2) None.
Definition district_admin : User.t := User.mk 3 false 30 (Some 20) (Some 100) (Some 2) None.
Definition nurse : User.t := User.mk 4 false 14 (Some 10) (Some 100) (Some 1) None.
Definition monitor_user : User.t := User.mk 5 false 14 None None (Some 1) (Some monitor).

Definition sample_accessible_facilities (u : User.t) : list Z :=
  if bool_decide (User.id u = 4) then [1] else [].

Definition request_of (u : User.t) : Request := mkRequest u None Absent None None ∅.

(** The same user with another district and home facility, and the same
    consultation with its patient assigned to someone else. *)
Definition with_district_and_home (u : User.t) (d h : option Z) : User.t :=
  User.mk (User.id u) (User.is_superuser u) (User.user_type u) (User.state u) d h
          (User.asset u).
Definition with_user (request : Request) (u : User.t) : Request :=
  mkRequest u (params_patient request) (params_facility request)
            (params_archived request) (params_preset_name request) (data request).
Definition with_preset_name (request : Request) (preset_name : string) : Request :=
  mkRequest (user request) (params_patient request) (params_facility request)
            (params_archived request) (Some preset_name) (data request).
Definition with_patient_assigned_to (c : PatientConsultation.t) (a : option Z)
  : PatientConsultation.t :=
  let p := PatientConsultation.patient c in
  PatientConsultation.mk
    (PatientConsultation.id c) (PatientConsultation.external_id c)
    (Patient.mk (Patient.external_id p) (Patient.is_active p) (Patient.facility p) a)
    (PatientConsultation.facility c) (PatientConsultation.assigned_to c)
    (PatientConsultation.current_bed c) (PatientConsultation.discharge_fields c).

(** The words of the asset-to-patient lookup: an open assignment that
    references the asset or a bed linked to it, a consultation of an
    active patient currently placed under an assignment, and the most
    recent (greatest primary key) row with a property. *)
Definition open_assignment_of (asset : Asset.t) (db : DB) (cb : ConsultationBed.t)
  : Prop :=
  cb ∈ consultation_beds db ∧ ConsultationBed.end_date cb = None ∧
  (Asset.id asset ∈ ConsultationBed.assets cb
   ∨ (Asset.id asset, Bed.id (ConsultationBed.bed cb)) ∈ asset_bed_set db).
Definition placed_in (cb : ConsultationBed.t) (db : DB) (c : PatientConsultation.t)
  : Prop :=
  c ∈ consultations db
  ∧ PatientConsultation.current_bed c = Some (ConsultationBed.id cb)
  ∧ patient__is_active c = true.
Definition most_recent {A} (pk : A → Z) (P : A → Prop) (x : A) : Prop :=
  P x ∧ ∀ y, P y → pk y ≤ pk x.

(** The database after a request that writes: the one the view hands
    back, or the one before when the view raised (the views here raise
    only before they write). *)
Definition state_after {A} (r : Result (A * DB)) (db : DB) : DB :=
  match r with
  | Ok (_, db') => db'
  | Raise _ => db
  end.

(** A row as [discharge_patient] leaves it. *)
Definition discharged (c : PatientConsultation.t) (payload : gmap string string)
  : PatientConsultation.t :=
  PatientConsultation.mk
    (PatientConsultation.id c) (PatientConsultation.external_id c)
    (PatientConsultation.patient c) (PatientConsultation.facility c)
    (PatientConsultation.assigned_to c) None
    (payload ∪ PatientConsultation.discharge_fields c).

(** What [PatientConsultationFilter] asks of a row: the [patient]
    parameter stands for the identifier of its patient, and the
    [facility] parameter for its facility. *)
Definition passes_filters (to_python : string → option string) (request : Request)
  (c : PatientConsultation.t) : Prop :=
  (∀ p, params_patient request = Some p →
        to_python p = Some (Patient.external_id (PatientConsultation.patient c)))
  ∧ (∀ f, params_facility request = Valid f → PatientConsultation.facility c = Some f).

(** A path value that stands for the identifier of a consultation. *)
Definition names (to_python : string → option string) (path : string)
  (c : PatientConsultation.t) : Prop :=
  to_python path = Some (PatientConsultation.external_id c).

(** * Properties *)

(** ** The views on the sample data *)

Example queryset_newest_first :
  PatientConsultationViewSet.queryset sample_db
  = [consultation_3; consultation_2; consultation_1].
Proof. reflexivity. Qed.

Example state_admin_queryset :
  PatientConsultationViewSet.get_queryset
    sample_TYPE_VALUE_MAP sample_accessible_facilities (request_of state_admin) sample_db
  = [consultation_1].
Proof. reflexivity. Qed.

Example district_admin_queryset :
  PatientConsultationViewSet.get_queryset
    sample_TYPE_VALUE_MAP sample_accessible_facilities (request_of district_admin) sample_db
  = [consultation_1].
Proof. reflexivity. Qed.

Example nurse_queryset :
  PatientConsultationViewSet.get_queryset
    sample_TYPE_VALUE_MAP sample_accessible_facilities (request_of nurse) sample_db
  = [consultation_1].
Proof. reflexivity. Qed.

Example monitor_user_queryset :
  PatientConsultationViewSet.get_queryset
    sample_TYPE_VALUE_MAP sample_accessible_facilities (request_of monitor_user) sample_db
  = [consultation_1].
Proof. reflexivity. Qed.

Example icontains_folds_case :
  icontains sample_UPPER (Some "Left View") "left" = true
  ∧ icontains sample_UPPER (Some "Left View") "RIGHT" = false
  ∧ icontains sample_UPPER None "left" = false.
Proof. repeat split. Qed.

Example sample_to_python_folds_case :
  sample_to_python "C0000000-0000-4000-8000-000000000001" = Some uuid_c1
  ∧ sample_to_python "not-a-uuid" = None.
Proof. split; reflexivity. Qed.

Example retrieve_by_another_spelling :
  PatientConsultationViewSet.retrieve
    sample_TYPE_VALUE_MAP sample_accessible_facilities (λ _ _ _, true) sample_to_python
    (request_of nurse) "C0000000-0000-4000-8000-000000000001" sample_db
  = Ok consultation_1.
Proof. reflexivity. Qed.

Example list_with_malformed_patient :
  PatientConsultationViewSet.list
    sample_TYPE_VALUE_MAP sample_accessible_facilities sample_to_python
    (mkRequest nurse (Some "not-a-uuid") Absent None None ∅) sample_db
  = Raise DjangoValidationError.
Proof. reflexivity. Qed.

Example list_with_malformed_facility :
  PatientConsultationViewSet.list
    sample_TYPE_VALUE_MAP sample_accessible_facilities sample_to_python
    (mkRequest nurse (Some "not-a-uuid") Invalid None None ∅) sample_db
  = Raise ValidationError.
Proof. reflexivity. Qed.

Example nurse_discharge_of_hidden_consultation :
  PatientConsultationViewSet.discharge_patient
    sample_TYPE_VALUE_MAP sample_accessible_facilities (λ _ _ _, true) (λ _ _, true)
    sample_to_python (request_of nurse) uuid_c2 sample_db
  = Raise Http404.
Proof. reflexivity. Qed.

Example nurse_discharge_of_malformed_identifier :
  PatientConsultationViewSet.discharge_patient
    sample_TYPE_VALUE_MAP sample_accessible_facilities (λ _ _ _, true) (λ _ _, true)
    sample_to_python (request_of nurse) "not-a-uuid" sample_db
  = Raise Http404.
Proof. reflexivity. Qed.

Example nurse_consents_of_hidden_consultation :
  PatientConsentViewSet.list
    sample_TYPE_VALUE_MAP sample_accessible_facilities sample_to_python
    (request_of nurse) uuid_c2 sample_db
  = Raise Http404.
Proof. reflexivity. Qed.

(** ** Query sets *)

Lemma elem_of_qs_filter {A} (q : A → bool) (l : list A) (x : A) :
  x ∈ qs_filter q l ↔ q x = true ∧ x ∈ l.
Proof.
  unfold qs_filter. rewrite list_elem_of_filter, Is_true_true. done.
Qed.

Lemma order_by_desc_Permutation {A} (pk : A → Z) (l : list A) :
  order_by_desc pk l ≡ₚ l.
Proof. apply merge_sort_Permutation. Qed.

Lemma elem_of_order_by_desc {A} (pk : A → Z) (l : list A) (x : A) :
  x ∈ order_by_desc pk l ↔ x ∈ l.
Proof. by rewrite order_by_desc_Permutation. Qed.

Lemma exact_true {A} `{EqDecision A} (lhs value : option A) :
  exact lhs value = true ↔ lhs = value.
Proof. unfold exact. apply bool_decide_eq_true. Qed.

Lemma lookup_in_true (lhs : option Z) (values : list Z) :
  lookup_in lhs values = true ↔ ∃ x, lhs = Some x ∧ x ∈ values.
Proof.
  destruct lhs as [x|]; simpl.
  - rewrite bool_decide_eq_true. split; [eauto|].
    by intros (y & [= ->] & Hy).
  - split; [done|]. by intros (y & Hy & _).
Qed.

Lemma qs_filter_submseteq {A} (q : A → bool) (l : list A) : qs_filter q l ⊆+ l.
Proof. apply sublist_submseteq, sublist_filter. Qed.

Lemma order_by_desc_submseteq {A} (pk : A → Z) (l : list A) :
  order_by_desc pk l ⊆+ l.
Proof. apply Permutation_submseteq, order_by_desc_Permutation. Qed.

Lemma submseteq_NoDup_fmap {A B} (f : A → B) (l k : list A) :
  l ⊆+ k → NoDup (f <$> k) → NoDup (f <$> l).
Proof.
  intros Hsub Hk. apply (fmap_submseteq f) in Hsub.
  apply submseteq_sublist_l in Hsub as (m & Hsub & Hperm).
  eapply sublist_NoDup; [|done]. by rewrite Hperm.
Qed.

(** ** Looking a row up by a unique key *)

Lemma qs_filter_key_absent {A B} `{EqDecision B} (key : A → B) (b : B) (l : list A) :
  b ∉ key <$> l → qs_filter (λ y, bool_decide (key y = b)) l = [].
Proof.
  intros Hb. unfold qs_filter. induction l as [|y l IH]; [done|].
  rewrite fmap_cons, not_elem_of_cons in Hb. destruct Hb as [Hne Hb].
  rewrite filter_cons_False; [by apply IH|].
  rewrite Is_true_true, bool_decide_eq_true. congruence.
Qed.

Lemma qs_filter_key_unique {A B} `{EqDecision B} (key : A → B) (l : list A) (x : A) :
  NoDup (key <$> l) → x ∈ l →
  qs_filter (λ y, bool_decide (key y = key x)) l = [x].
Proof.
  intros Hdup Hx. induction l as [|y l IH]; [by apply elem_of_nil in Hx|].
  rewrite fmap_cons, NoDup_cons in Hdup. destruct Hdup as [Hy Hdup].
  unfold qs_filter in *. apply elem_of_cons in Hx as [->|Hx].
  - rewrite filter_cons_True by (by rewrite Is_true_true, bool_decide_eq_true).
    f_equal. by apply (qs_filter_key_absent key).
  - rewrite filter_cons_False; [by apply IH|].
    rewrite Is_true_true, bool_decide_eq_true. intros Heq.
    apply Hy. rewrite Heq. by apply list_elem_of_fmap_2.
Qed.

Lemma key_unique_inj {A B} (key : A → B) (l : list A) (x y : A) :
  NoDup (key <$> l) → x ∈ l → y ∈ l → key x = key y → x = y.
Proof.
  intros Hdup Hx Hy Heq. induction l as [|z l IH]; [by apply elem_of_nil in Hx|].
  rewrite fmap_cons, NoDup_cons in Hdup. destruct Hdup as [Hz Hdup].
  apply elem_of_cons in Hx as [->|Hx]; apply elem_of_cons in Hy as [->|Hy];
    [done| | |by apply IH].
  - destruct Hz. rewrite Heq. by apply list_elem_of_fmap_2.
  - destruct Hz. rewrite <- Heq. by apply list_elem_of_fmap_2.
Qed.

Lemma get_object_or_404_Ok {A} (l : list A) (x : A) :
  get_object_or_404 l = Ok x ↔ l = [x].
Proof.
  destruct l as [|y [|z l]]; simpl; split; intros H; by simplify_eq.
Qed.

Lemma get_object_or_404_empty {A} (l : list A) :
  (∀ x, x ∉ l) → get_object_or_404 l = Raise Http404.
Proof.
  destruct l as [|y l]; [done|]. intros H. destruct (H y). left.
Qed.

(** ** The first row of an ordered query set *)

#[global] Instance desc_trans {A} (pk : A → Z) : Transitive (desc pk).
Proof. intros a b c. unfold desc. lia. Qed.
#[global] Instance desc_total {A} (pk : A → Z) : Total (desc pk).
Proof. intros a b. unfold desc. lia. Qed.

Lemma order_by_desc_sorted {A} (pk : A → Z) (l : list A) :
  StronglySorted (desc pk) (order_by_desc pk l).
Proof. apply StronglySorted_merge_sort; apply _. Qed.

Lemma first_None {A} (l : list A) : first l = None ↔ ∀ x, x ∉ l.
Proof.
  unfold first. rewrite head_None. split.
  - intros -> x. apply not_elem_of_nil.
  - destruct l as [|y l]; [done|]. intros H. destruct (H y). left.
Qed.

(** [filter(q).order_by("-id").first()] *)
Lemma first_order_by_desc_Some {A} (pk : A → Z) (l : list A) (x : A) :
  first (order_by_desc pk l) = Some x →
  x ∈ l ∧ ∀ y, y ∈ l → pk y ≤ pk x.
Proof.
  intros Hhead. pose proof (order_by_desc_sorted pk l) as Hsorted.
  apply head_Some in Hhead as [m Hm]. rewrite Hm in Hsorted.
  apply StronglySorted_inv in Hsorted as [_ Hall].
  rewrite Forall_forall in Hall. split.
  - apply (elem_of_order_by_desc pk). rewrite Hm. left.
  - intros y Hy. apply (elem_of_order_by_desc pk) in Hy. rewrite Hm in Hy.
    apply elem_of_cons in Hy as [->|Hy]; [lia|]. by apply Hall.
Qed.

(** [order_by("-id").filter(q).first()] *)
Lemma first_filter_order_by_desc_Some {A} (pk : A → Z) (q : A → bool) (l : list A) x :
  first (qs_filter q (order_by_desc pk l)) = Some x →
  (q x = true ∧ x ∈ l) ∧ ∀ y, q y = true ∧ y ∈ l → pk y ≤ pk x.
Proof.
  intros Hhead. pose proof (order_by_desc_sorted pk l) as Hsorted.
  assert (x ∈ qs_filter q (order_by_desc pk l)) as Hx
    by by apply head_Some_elem_of.
  apply elem_of_qs_filter in Hx as [Hq Hx]. apply elem_of_order_by_desc in Hx.
  split; [done|]. intros y [Hqy Hy].
  apply head_filter_Some in Hhead as (l1 & l2 & Hl & Hl1).
  rewrite Hl in Hsorted. apply StronglySorted_app_1_r in Hsorted.
  apply StronglySorted_inv in Hsorted as [_ Hall].
  rewrite Forall_forall in Hall, Hl1.
  apply (elem_of_order_by_desc pk) in Hy. rewrite Hl in Hy.
  apply elem_of_app in Hy as [Hy|Hy].
  - destruct (Hl1 y Hy). by apply Is_true_true.
  - apply elem_of_cons in Hy as [->|Hy]; [lia|]. by apply Hall.
Qed.

Lemma most_recent_unique {A} (pk : A → Z) (l : list A) (P : A → Prop) (x y : A) :
  NoDup (pk <$> l) → (∀ z, P z → z ∈ l) →
  most_recent pk P x → most_recent pk P y → x = y.
Proof.
  intros Hdup Hin [Hx Hmaxx] [Hy Hmaxy].
  apply (key_unique_inj pk l); auto.
  specialize (Hmaxx y Hy). specialize (Hmaxy x Hx). lia.
Qed.

Lemma fmap_ext_elem_of {A B} (f g : A → B) (l : list A) :
  (∀ x, x ∈ l → f x = g x) → f <$> l = g <$> l.
Proof.
  induction l as [|y l IH]; [done|]. intros H. rewrite !fmap_cons. f_equal.
  - apply H. left.
  - apply IH. intros x Hx. apply H. by right.
Qed.

(** ** The asset-to-patient lookup *)

Lemma bed_set_spec asset db b :
  b ∈ PatientConsultationViewSet.bed_set asset db ↔
  (Asset.id asset, b) ∈ asset_bed_set db.
Proof.
  unfold PatientConsultationViewSet.bed_set. rewrite list_elem_of_fmap. split.
  - intros ([a b'] & -> & Hlink). apply list_elem_of_filter in Hlink as [Ha Hlink].
    simpl in *. by subst a.
  - intros Hlink. exists (Asset.id asset, b). split; [done|].
    by apply list_elem_of_filter.
Qed.

Lemma open_assignment_filter asset db cb :
  cb ∈ qs_filter (λ cb,
          (bool_decide (Asset.id asset ∈ ConsultationBed.assets cb)
           || bool_decide (Bed.id (ConsultationBed.bed cb)
                           ∈ PatientConsultationViewSet.bed_set asset db))
          && bool_decide (ConsultationBed.end_date cb = None))
        (consultation_beds db)
  ↔ open_assignment_of asset db cb.
Proof.
  rewrite elem_of_qs_filter, andb_true_iff, orb_true_iff, !bool_decide_eq_true,
    bed_set_spec.
  unfold open_assignment_of. tauto.
Qed.

Lemma placed_in_filter cb db c :
  (exact (PatientConsultation.current_bed c) (Some (ConsultationBed.id cb))
   && patient__is_active c = true) ∧ c ∈ consultations db
  ↔ placed_in cb db c.
Proof. rewrite andb_true_iff, exact_true. unfold placed_in. tauto. Qed.

(** C8. For a caller bound to an asset (primary keys being unique), the
    lookup raises NotFound when no open assignment references the asset
    or a bed linked to it; otherwise, with the most recent such
    assignment, it raises NotFound when no consultation of an active
    patient is placed under it, and otherwise answers with the
    identifiers of the patient and of the most recent such consultation,
    the identifier of the bed, and the asset-bed presets (those at the
    asset's location, on that bed, whose preset name contains the
    requested one under the case folding of the database; none when no
    name is requested). *)
Theorem patient_from_asset_selects_most_recent
  (UPPER : string → string) request db asset :
  User.asset (user request) = Some asset →
  NoDup (ConsultationBed.id <$> consultation_beds db) →
  NoDup (PatientConsultation.id <$> consultations db) →
  ((∀ cb, ¬ open_assignment_of asset db cb) →
   PatientConsultationViewSet.patient_from_asset UPPER request db
   = Raise (NotFound "No consultation bed found for this asset"))
  ∧ (∀ cb, most_recent ConsultationBed.id (open_assignment_of asset db) cb →
     ((∀ c, ¬ placed_in cb db c) →
      PatientConsultationViewSet.patient_from_asset UPPER request db
      = Raise (NotFound "No consultation found for this asset"))
     ∧ (∀ c, most_recent PatientConsultation.id (placed_in cb db) c →
        ∃ beds,
          PatientConsultationViewSet.patient_from_asset UPPER request db
          = Ok (mkResponse 200 (Some (mkPatientConsultationID
                  (Patient.external_id (PatientConsultation.patient c))
                  (PatientConsultation.external_id c)
                  (Bed.external_id (ConsultationBed.bed cb))
                  beds)))
          ∧ ∀ ab, ab ∈ beds ↔
              ∃ preset_name,
                params_preset_name request = Some preset_name
                ∧ preset_name ≠ ""
                ∧ ab ∈ asset_beds db
                ∧ Asset.current_location (AssetBed.asset ab)
                  = Asset.current_location asset
                ∧ Bed.id (AssetBed.bed ab) = Bed.id (ConsultationBed.bed cb)
                ∧ icontains UPPER (AssetBed.meta__preset_name ab) preset_name = true)).
Proof.
  intros Hasset Hdup_cb Hdup_c.
  unfold PatientConsultationViewSet.patient_from_asset. rewrite Hasset.
  split.
  { intros Hnone.
    destruct (first _) as [cb|] eqn:Hfirst; [|done].
    apply first_order_by_desc_Some in Hfirst as [Hcb _].
    apply open_assignment_filter in Hcb. by destruct (Hnone cb). }
  intros cb Hcb.
  assert (first (order_by_desc ConsultationBed.id
            (qs_filter (λ cb,
               (bool_decide (Asset.id asset ∈ ConsultationBed.assets cb)
                || bool_decide (Bed.id (ConsultationBed.bed cb)
                                ∈ PatientConsultationViewSet.bed_set asset db))
               && bool_decide (ConsultationBed.end_date cb = None))
             (consultation_beds db))) = Some cb) as ->.
  { destruct (first _) as [cb'|] eqn:Hfirst.
    - f_equal.
      apply (most_recent_unique ConsultationBed.id (consultation_beds db)
               (open_assignment_of asset db)); [done|by intros z [Hz _]| |done].
      apply first_order_by_desc_Some in Hfirst as [Hcb' Hmax].
      split; [by apply open_assignment_filter|].
      intros y Hy. by apply Hmax, open_assignment_filter.
    - rewrite first_None in Hfirst. destruct Hcb as [Hcb _].
      destruct (Hfirst cb). apply elem_of_order_by_desc.
      by apply open_assignment_filter. }
  split.
  { intros Hnone. destruct (first _) as [c|] eqn:Hfirst; [|done].
    apply first_filter_order_by_desc_Some in Hfirst as [Hc _].
    apply placed_in_filter in Hc. by destruct (Hnone c). }
  intros c Hc.
  assert (first (qs_filter (λ c,
                   exact (PatientConsultation.current_bed c)
                         (Some (ConsultationBed.id cb))
                   && patient__is_active c)
                 (order_by_desc PatientConsultation.id (consultations db)))
          = Some c) as ->.
  { destruct (first _) as [c'|] eqn:Hfirst.
    - f_equal.
      apply (most_recent_unique PatientConsultation.id (consultations db)
               (placed_in cb db)); [done|by intros z [Hz _]| |done].
      apply first_filter_order_by_desc_Some in Hfirst as [Hc' Hmax].
      split; [by apply placed_in_filter|].
      intros y Hy. by apply Hmax, placed_in_filter.
    - rewrite first_None in Hfirst. destruct Hc as [Hc _].
      destruct (Hfirst c). apply placed_in_filter in Hc as [Hq Hc].
      apply elem_of_qs_filter. split; [done|]. by apply elem_of_order_by_desc. }
  eexists. split; [reflexivity|]. intros ab.
  destruct (params_preset_name request) as [preset_name|].
  - case_bool_decide as Hempty.
    + split; [by intros ?%elem_of_nil|]. intros (p & [= <-] & Hne & _). done.
    + rewrite elem_of_qs_filter, !andb_true_iff, exact_true, bool_decide_eq_true.
      split.
      * intros [[[Hloc Hbed] Hname] Hab]. by exists preset_name.
      * intros (p & [= <-] & _ & Hab & Hloc & Hbed & Hname). done.
  - split; [by intros ?%elem_of_nil|]. by intros (p & [=] & _).
Qed.

(** ** The consultation query set *)

Section Properties.
Variable TYPE_VALUE_MAP : string → Z.
Variable get_accessible_facilities : User.t → list Z.

Abbreviation get_queryset :=
  (PatientConsultationViewSet.get_queryset TYPE_VALUE_MAP get_accessible_facilities).
Abbreviation build_consultation_predicate :=
  (Spec.build_consultation_predicate
     (TYPE_VALUE_MAP "StateLabAdmin") (TYPE_VALUE_MAP "DistrictLabAdmin")
     get_accessible_facilities).

(** [get_queryset] selects the rows of the table on which the predicate
    of the design holds. *)
Lemma elem_of_get_queryset request db c :
  c ∈ get_queryset request db ↔
  c ∈ consultations db ∧ build_consultation_predicate (user request) c = true.
Proof.
  unfold PatientConsultationViewSet.get_queryset, Spec.build_consultation_predicate,
    PatientConsultationViewSet.queryset.
  destruct (User.is_superuser (user request)).
  { rewrite elem_of_order_by_desc. tauto. }
  destruct (bool_decide (TYPE_VALUE_MAP "StateLabAdmin" ≤ _));
    [|destruct (bool_decide (TYPE_VALUE_MAP "DistrictLabAdmin" ≤ _))];
    rewrite elem_of_qs_filter, elem_of_order_by_desc; unfold exact; [tauto..|].
  unfold Q_or, Q_and, exact, lookup_in.
  destruct (patient__facility__id c); simpl; tauto.
Qed.

(** C2. The query set built for a superuser holds every consultation of
    the table, whatever the facility, state or district of the record
    and whatever the other attributes of the user. *)
Theorem superuser_matches_every_consultation request db c :
  User.is_superuser (user request) = true →
  c ∈ consultations db →
  c ∈ get_queryset request db.
Proof.
  intros Hsuper Hc. unfold PatientConsultationViewSet.get_queryset.
  rewrite Hsuper. by apply elem_of_order_by_desc.
Qed.

(** C3. For a user who is not a superuser and whose tier is at or above
    StateLabAdmin, a consultation is in the query set exactly when the
    state of its patient's facility is the user's state; the user's
    district and home facility do not enter: the same query set is built
    whatever they are. *)
Theorem state_tier_matches_by_state request db c :
  User.is_superuser (user request) = false →
  TYPE_VALUE_MAP "StateLabAdmin" ≤ User.user_type (user request) →
  c ∈ consultations db →
  (c ∈ get_queryset request db ↔
   patient__facility__state c = User.state (user request))
  ∧ (∀ d h, get_queryset
              (with_user request (with_district_and_home (user request) d h)) db
            = get_queryset request db).
Proof.
  intros Hsuper Htier Hc. split.
  - unfold PatientConsultationViewSet.get_queryset. rewrite Hsuper.
    rewrite bool_decide_true by done.
    rewrite elem_of_qs_filter, exact_true.
    unfold PatientConsultationViewSet.queryset.
    rewrite elem_of_order_by_desc. tauto.
  - intros d h. unfold PatientConsultationViewSet.get_queryset. simpl.
    rewrite Hsuper. by rewrite !bool_decide_true by done.
Qed.

(** C4. For a user who is not a superuser and whose tier is at or above
    DistrictLabAdmin and below StateLabAdmin, a consultation is in the
    query set exactly when the district of its patient's facility is the
    user's district. *)
Theorem district_tier_matches_by_district request db c :
  User.is_superuser (user request) = false →
  TYPE_VALUE_MAP "DistrictLabAdmin" ≤ User.user_type (user request) →
  User.user_type (user request) < TYPE_VALUE_MAP "StateLabAdmin" →
  c ∈ consultations db →
  (c ∈ get_queryset request db ↔
   patient__facility__district c = User.district (user request)).
Proof.
  intros Hsuper Hdistrict Hstate Hc.
  unfold PatientConsultationViewSet.get_queryset. rewrite Hsuper.
  rewrite bool_decide_false by lia. rewrite bool_decide_true by done.
  rewrite elem_of_qs_filter, exact_true.
  unfold PatientConsultationViewSet.queryset.
  rewrite elem_of_order_by_desc. tauto.
Qed.

Section GeneralUser.

(** The role tiers are ordered: DistrictLabAdmin lies below
    StateLabAdmin. *)
Hypothesis tier_order :
  TYPE_VALUE_MAP "DistrictLabAdmin" ≤ TYPE_VALUE_MAP "StateLabAdmin".

(** The query set of a general user, as a condition on the row. *)
Lemma general_user_queryset request db c :
  User.is_superuser (user request) = false →
  User.user_type (user request) < TYPE_VALUE_MAP "DistrictLabAdmin" →
  (c ∈ get_queryset request db ↔
   c ∈ consultations db ∧
   ((patient__is_active c = true ∧
     ∃ f, patient__facility__id c = Some f
          ∧ f ∈ get_accessible_facilities (user request))
    ∨ PatientConsultation.facility c = User.home_facility (user request))).
Proof.
  intros Hsuper Htier.
  unfold PatientConsultationViewSet.get_queryset. rewrite Hsuper.
  rewrite !bool_decide_false by lia.
  rewrite elem_of_qs_filter. unfold Q_or, Q_and.
  rewrite orb_true_iff, andb_true_iff, exact_true, lookup_in_true.
  unfold PatientConsultationViewSet.queryset.
  rewrite elem_of_order_by_desc. tauto.
Qed.

(** C5. For a general user (not a superuser, tier below
    DistrictLabAdmin), with A the accessible facilities of the user, a
    consultation is in the query set exactly when (its patient is active
    and the patient's facility is in A) or (its facility is the user's
    home facility).  Each disjunct suffices, and the consultation of an
    inactive patient outside the home facility is left out. *)
Theorem general_user_matches_by_facility request db c :
  User.is_superuser (user request) = false →
  User.user_type (user request) < TYPE_VALUE_MAP "DistrictLabAdmin" →
  c ∈ consultations db →
  let A := get_accessible_facilities (user request) in
  let active_in_A :=
    patient__is_active c = true ∧ ∃ f, patient__facility__id c = Some f ∧ f ∈ A in
  let in_home :=
    PatientConsultation.facility c = User.home_facility (user request) in
  (c ∈ get_queryset request db ↔ active_in_A ∨ in_home)
  ∧ (active_in_A → c ∈ get_queryset request db)
  ∧ (in_home → c ∈ get_queryset request db)
  ∧ (patient__is_active c = false → ¬ in_home → c ∉ get_queryset request db).
Proof.
  intros Hsuper Htier Hc A active_in_A in_home.
  pose proof (general_user_queryset request db c Hsuper Htier) as Hq.
  subst A active_in_A in_home. repeat split.
  - intros H. apply Hq in H. tauto.
  - intros H. apply Hq. tauto.
  - intros H. apply Hq. tauto.
  - intros H. apply Hq. tauto.
  - intros Hinactive Hhome H. apply Hq in H as [_ [[Hact _]|H]]; [congruence|done].
Qed.

(** C10. For a general user, whether a consultation is in the query set
    does not depend on who its patient is assigned to: two rows that
    differ only there are both in or both out, so assigning the patient
    to the user does not make a hidden consultation visible. *)
Theorem patient_assignment_is_not_consulted request db db' c a :
  User.is_superuser (user request) = false →
  User.user_type (user request) < TYPE_VALUE_MAP "DistrictLabAdmin" →
  c ∈ consultations db →
  with_patient_assigned_to c a ∈ consultations db' →
  (c ∈ get_queryset request db ↔
   with_patient_assigned_to c a ∈ get_queryset request db')
  ∧ (c ∉ get_queryset request db →
     a = Some (User.id (user request)) →
     with_patient_assigned_to c a ∉ get_queryset request db').
Proof.
  intros Hsuper Htier Hc Hc'.
  assert (c ∈ get_queryset request db ↔
          with_patient_assigned_to c a ∈ get_queryset request db') as Hiff.
  { rewrite !general_user_queryset by done.
    unfold patient__is_active, patient__facility__id. simpl. tauto. }
  split; [done|]. intros Hout _. by rewrite <- Hiff.
Qed.

End GeneralUser.

(** ** Consents *)

Section Views.
Variable to_python : string → option string.
Variable has_object_permission : string → User.t → PatientConsultation.t → bool.
Variable is_valid : PatientConsultation.t → gmap string string → bool.
Variable has_consent_permission : string → User.t → PatientConsent.t → bool.
Variable UPPER : string → string.

Abbreviation get_consultation_obj :=
  (PatientConsentViewSet.get_consultation_obj
     TYPE_VALUE_MAP get_accessible_facilities to_python).
Abbreviation consent_queryset :=
  (PatientConsentViewSet.get_queryset TYPE_VALUE_MAP get_accessible_facilities to_python).
Abbreviation consent_list :=
  (PatientConsentViewSet.list TYPE_VALUE_MAP get_accessible_facilities to_python).
Abbreviation consent_retrieve :=
  (PatientConsentViewSet.retrieve
     TYPE_VALUE_MAP get_accessible_facilities has_consent_permission to_python).

(** The consultation that [get_consultation_obj] resolves is one the
    path value names and the predicate holds of. *)
Lemma get_consultation_obj_visible request path db c :
  get_consultation_obj request path db = Ok c →
  c ∈ consultations db ∧ names to_python path c
  ∧ build_consultation_predicate (user request) c = true.
Proof.
  unfold PatientConsentViewSet.get_consultation_obj,
    PatientConsentViewSet.get_consultation_queryset, names.
  destruct (to_python path) as [value|]; [|done].
  rewrite get_object_or_404_Ok. intros Heq.
  assert (c ∈ [c]) as Hc by left. rewrite <- Heq in Hc.
  apply elem_of_qs_filter in Hc as [Hext Hc].
  apply elem_of_qs_filter in Hc as [Hpred Hc].
  apply bool_decide_eq_true in Hext. by subst value.
Qed.


(** A path value that is a UUID and names no visible consultation is
    answered with the 404 exception. *)
Lemma get_consultation_obj_missing request path db value :
  to_python path = Some value →
  (∀ c, c ∈ consultations db → names to_python path c →
        build_consultation_predicate (user request) c = false) →
  get_consultation_obj request path db = Raise Http404.
Proof.
  intros Hvalue Hnone. unfold PatientConsentViewSet.get_consultation_obj.
  rewrite Hvalue. apply get_object_or_404_empty. intros c Hc.
  apply elem_of_qs_filter in Hc as [Hext Hc].
  apply elem_of_qs_filter in Hc as [Hpred Hc].
  apply bool_decide_eq_true in Hext.
  rewrite (Hnone c) in Hpred; [done|done|]. unfold names. by rewrite Hvalue, Hext.
Qed.





(** ** Listing and resolving consultations *)

Abbreviation filter_queryset := (PatientConsultationViewSet.filter_queryset to_python).
Abbreviation consultation_list :=
  (PatientConsultationViewSet.list TYPE_VALUE_MAP get_accessible_facilities to_python).
Abbreviation get_object :=
  (PatientConsultationViewSet.get_object
     TYPE_VALUE_MAP get_accessible_facilities has_object_permission to_python).
Abbreviation retrieve :=
  (PatientConsultationViewSet.retrieve
     TYPE_VALUE_MAP get_accessible_facilities has_object_permission to_python).
Abbreviation discharge_patient :=
  (PatientConsultationViewSet.discharge_patient
     TYPE_VALUE_MAP get_accessible_facilities has_object_permission is_valid to_python).

(** When [filter_queryset] raises, and with what. *)
Lemma filter_queryset_Raise request l e :
  filter_queryset request l = Raise e ↔
  (params_facility request = Invalid ∧ e = ValidationError)
  ∨ (params_facility request ≠ Invalid
     ∧ (∃ p, params_patient request = Some p ∧ to_python p = None)
     ∧ e = DjangoValidationError).
Proof.
  unfold PatientConsultationViewSet.filter_queryset.
  destruct (params_facility request) as [| |f];
    destruct (params_patient request) as [p|];
    try destruct (to_python p) as [value|] eqn:Hp; simpl; split;
    try (intros [= <-]); try (intros [[Hf He]|(Hf & (p' & Hp' & Hnone) & He)]);
    try done; try (right; split; [done|]; split; [by eauto|done]);
    try (left; by split); try (subst; done); congruence.
Qed.

Lemma elem_of_filter_queryset request l l' c :
  filter_queryset request l = Ok l' →
  (c ∈ l' ↔ c ∈ l ∧ passes_filters to_python request c).
Proof.
  unfold PatientConsultationViewSet.filter_queryset, passes_filters.
  destruct (params_facility request) as [| |f]; [|done|];
    destruct (params_patient request) as [p|];
    try destruct (to_python p) as [value|] eqn:Hp; simpl; try done;
    intros [= <-]; rewrite ?elem_of_qs_filter, ?exact_true, ?bool_decide_eq_true.
  - split.
    + intros (Hpat & Hc). repeat split; [done| |done]. intros ? [= <-]. congruence.
    + intros (Hc & Hpat & _). split; [|done].
      specialize (Hpat p eq_refl). congruence.
  - split; [|by intros [Hc _]]. intros Hc. by repeat split.
  - split.
    + intros (Hf & Hpat & Hc). repeat split; [done| |].
      * intros ? [= <-]. congruence.
      * by intros ? [= <-].
    + intros (Hc & Hpat & Hf). split; [by apply Hf|]. split; [|done].
      specialize (Hpat p eq_refl). congruence.
  - split.
    + intros (Hf & Hc). repeat split; [done..|]. by intros ? [= <-].
    + intros (Hc & _ & Hf). split; [by apply Hf|done].
Qed.

Lemma filter_queryset_sublist request l l' :
  filter_queryset request l = Ok l' → l' `sublist_of` l.
Proof.
  unfold PatientConsultationViewSet.filter_queryset, qs_filter.
  destruct (params_facility request) as [| |f]; [|done|];
    destruct (params_patient request) as [p|];
    try destruct (to_python p) as [value|]; simpl; try done; intros [= <-];
    try reflexivity; try apply sublist_filter.
  etrans; apply sublist_filter.
Qed.

Lemma elem_of_consultation_list request db l c :
  consultation_list request db = Ok l →
  (c ∈ l ↔
   c ∈ consultations db
   ∧ build_consultation_predicate (user request) c = true
   ∧ passes_filters to_python request c).
Proof.
  unfold PatientConsultationViewSet.list. intros Hl.
  rewrite (elem_of_filter_queryset _ _ _ _ Hl), elem_of_get_queryset.
  split; [intros [[Hc Hpred] Hf]|intros (Hc & Hpred & Hf)]; (split; [|done]); done.
Qed.

Lemma get_queryset_submseteq request db :
  get_queryset request db ⊆+ consultations db.
Proof.
  unfold PatientConsultationViewSet.get_queryset, PatientConsultationViewSet.queryset.
  destruct (User.is_superuser _); [apply order_by_desc_submseteq|].
  repeat case_bool_decide;
    (etrans; [apply qs_filter_submseteq|apply order_by_desc_submseteq]).
Qed.

Lemma consultation_list_submseteq request db l :
  consultation_list request db = Ok l → l ⊆+ consultations db.
Proof.
  unfold PatientConsultationViewSet.list. intros Hl. etrans.
  - eapply sublist_submseteq, filter_queryset_sublist. exact Hl.
  - apply get_queryset_submseteq.
Qed.

(** [get_object] finds a listed row by a path value that names it. *)
Lemma get_object_listed action request db l c path :
  NoDup (PatientConsultation.external_id <$> consultations db) →
  consultation_list request db = Ok l →
  c ∈ l →
  names to_python path c →
  get_object action request path db
  = if has_object_permission action (user request) c then Ok c
    else Raise PermissionDenied.
Proof.
  intros Hdup Hl Hc Hpath. unfold PatientConsultationViewSet.get_object.
  fold (consultation_list request db). rewrite Hl. simpl.
  unfold names in Hpath. rewrite Hpath.
  rewrite (qs_filter_key_unique PatientConsultation.external_id); [done| |done].
  eapply submseteq_NoDup_fmap; [|done].
  by apply (consultation_list_submseteq request).
Qed.


(** C6. For a path value that is no UUID, and so names no consultation,
    the consent views do not answer with the 404 exception: the query
    set, the list and the retrieval raise the validation error of the
    field, which is answered with status 500; the consultation views of
    the same file answer the same path value with the 404 exception. *)
Theorem consent_views_raise_on_malformed_identifier request path db :
  to_python path = None →
  (∀ c, ¬ names to_python path c)
  ∧ consent_queryset request path db = Raise DjangoValidationError
  ∧ consent_list request path db = Raise DjangoValidationError
  ∧ (∀ kid, consent_retrieve request path kid db = Raise DjangoValidationError)
  ∧ status_of_exception DjangoValidationError = 500
  ∧ (∀ action l, consultation_list request db = Ok l →
                 get_object action request path db = Raise Http404).
Proof.
  intros Hpath.
  assert (get_consultation_obj request path db = Raise DjangoValidationError) as Hobj.
  { unfold PatientConsentViewSet.get_consultation_obj. by rewrite Hpath. }
  split; [|split; [|split; [|split; [|split]]]].
  - intros c. unfold names. by rewrite Hpath.
  - unfold PatientConsentViewSet.get_queryset. by rewrite Hobj.
  - unfold PatientConsentViewSet.list, PatientConsentViewSet.get_queryset.
    by rewrite Hobj.
  - intros kid.
    unfold PatientConsentViewSet.retrieve, PatientConsentViewSet.get_queryset.
    by rewrite Hobj.
  - done.
  - intros action l Hl. unfold PatientConsultationViewSet.get_object.
    fold (consultation_list request db). rewrite Hl. simpl. by rewrite Hpath.
Qed.

(** ** Discharge *)

Lemma discharged_predicate u c payload :
  build_consultation_predicate u (discharged c payload)
  = build_consultation_predicate u c.
Proof. done. Qed.

Lemma discharged_twice c payload :
  discharged (discharged c payload) payload = discharged c payload.
Proof.
  unfold discharged. simpl. f_equal.
  by rewrite (assoc_L (∪)), (idemp_L (∪)).
Qed.

(** The table after [save] wrote the discharged row. *)
Lemma save_consultations c payload db :
  NoDup (PatientConsultation.id <$> consultations db) →
  c ∈ consultations db →
  let db1 := PatientConsultationViewSet.save c payload None db in
  discharged c payload ∈ consultations db1
  ∧ PatientConsultation.id <$> consultations db1
    = PatientConsultation.id <$> consultations db
  ∧ PatientConsultation.external_id <$> consultations db1
    = PatientConsultation.external_id <$> consultations db
  ∧ (∀ r, PatientConsultation.id r ≠ PatientConsultation.id c →
          (r ∈ consultations db1 ↔ r ∈ consultations db)).
Proof.
  intros Hdup Hc db1. subst db1. unfold PatientConsultationViewSet.save. simpl.
  fold (discharged c payload).
  assert (∀ r, r ∈ consultations db →
               PatientConsultation.id r = PatientConsultation.id c → r = c) as Hsame.
  { intros r Hr Hid. by apply (key_unique_inj PatientConsultation.id (consultations db)). }
  repeat split.
  - apply list_elem_of_fmap. exists c. by rewrite bool_decide_true.
  - rewrite <- list_fmap_compose. apply fmap_ext_elem_of. intros r Hr. simpl.
    case_bool_decide; done.
  - rewrite <- list_fmap_compose. apply fmap_ext_elem_of. intros r Hr. simpl.
    case_bool_decide as Hid; [|done]. by rewrite (Hsame r Hr Hid).
  - intros Hr. apply list_elem_of_fmap in Hr as (r' & -> & Hr').
    case_bool_decide; [|done]. by destruct H.
  - intros Hr. apply list_elem_of_fmap. exists r. by rewrite bool_decide_false.
Qed.

Lemma save_discharged_again c payload db :
  NoDup (PatientConsultation.id <$> consultations db) →
  c ∈ consultations db →
  let db1 := PatientConsultationViewSet.save c payload None db in
  PatientConsultationViewSet.save (discharged c payload) payload None db1 = db1.
Proof.
  intros Hdup Hc db1.
  destruct (save_consultations c payload db Hdup Hc) as (Hin & Hids & _ & _).
  fold db1 in Hin, Hids.
  unfold PatientConsultationViewSet.save at 1.
  fold (discharged (discharged c payload) payload). rewrite discharged_twice.
  replace ((λ row, if bool_decide (PatientConsultation.id row
                                   = PatientConsultation.id (discharged c payload))
                   then discharged c payload else row) <$> consultations db1)
    with (consultations db1); [done|].
  rewrite <- (list_fmap_id (consultations db1)) at 1.
  apply fmap_ext_elem_of. intros r Hr. simpl. case_bool_decide as Hid; [|done].
  apply (key_unique_inj PatientConsultation.id (consultations db1)); try done.
  by rewrite Hids.
Qed.

(** The list of a request after [save] wrote the discharged row: it
    still succeeds, and the discharged row is listed where the row
    was. *)
Lemma consultation_list_after_save request db l c payload :
  NoDup (PatientConsultation.id <$> consultations db) →
  consultation_list request db = Ok l →
  c ∈ l →
  ∃ l1, consultation_list request (PatientConsultationViewSet.save c payload None db)
        = Ok l1
        ∧ discharged c payload ∈ l1.
Proof.
  intros Hpk Hl Hc.
  pose proof Hc as Hlisted.
  apply (elem_of_consultation_list request db l c Hl) in Hlisted
    as (Hin & Hpred & Hfilters).
  destruct (consultation_list request (PatientConsultationViewSet.save c payload None db))
    as [l1|e] eqn:Hl1.
  - exists l1. split; [done|].
    apply (elem_of_consultation_list _ _ _ _ Hl1).
    destruct (save_consultations c payload db Hpk Hin) as (Hin1 & _).
    split; [done|]. by split.
  - exfalso. unfold PatientConsultationViewSet.list in Hl, Hl1.
    apply filter_queryset_Raise in Hl1.
    assert (filter_queryset request (get_queryset request db) = Raise e) as Hraise
      by by apply filter_queryset_Raise.
    congruence.
Qed.

(** C7. For a consultation that exists and that the requester sees
    (identifiers and primary keys being unique), addressed by a path
    value that names it, once the object check and the validation of the
    payload let the request through, [discharge_patient] answers with
    status 200 and no content and leaves the row with [current_bed] null
    and the discharge fields of the payload, every other row as it was.
    The discharged row is still resolved for the requester, and
    discharging it again with the same request leaves the database as
    the first discharge left it: the second request either succeeds with
    that same state or is turned down, by the object check or the
    validation, before anything is written. *)
Theorem discharge_clears_bed_and_is_idempotent request db listed c path :
  NoDup (PatientConsultation.external_id <$> consultations db) →
  NoDup (PatientConsultation.id <$> consultations db) →
  consultation_list request db = Ok listed →
  c ∈ listed →
  names to_python path c →
  has_object_permission "discharge_patient" (user request) c = true →
  is_valid c (data request) = true →
  let c1 := discharged c (data request) in
  ∃ db1,
    discharge_patient request path db = Ok (mkResponse 200 None, db1)
    ∧ c1 ∈ consultations db1
    ∧ PatientConsultation.current_bed c1 = None
    ∧ (∀ k v, data request !! k = Some v →
              PatientConsultation.discharge_fields c1 !! k = Some v)
    ∧ (∀ r, PatientConsultation.id r ≠ PatientConsultation.id c →
            (r ∈ consultations db1 ↔ r ∈ consultations db))
    ∧ (∃ listed1, consultation_list request db1 = Ok listed1 ∧ c1 ∈ listed1)
    ∧ state_after (discharge_patient request path db1) db1 = db1
    ∧ (discharge_patient request path db1 = Ok (mkResponse 200 None, db1)
       ∨ discharge_patient request path db1 = Raise PermissionDenied
       ∨ discharge_patient request path db1 = Raise ValidationError).
Proof.
  intros Hext Hpk Hl Hc Hpath Hperm Hvalid c1.
  pose proof Hc as Hlisted.
  apply (elem_of_consultation_list request db listed c Hl) in Hlisted
    as (Hin & Hpred & Hfilters).
  set (db1 := PatientConsultationViewSet.save c (data request) None db).
  destruct (save_consultations c (data request) db Hpk Hin) as (Hin1 & Hids & Hexts & Hrest).
  fold db1 in Hin1, Hids, Hexts, Hrest. fold c1 in Hin1.
  destruct (consultation_list_after_save request db listed c (data request) Hpk Hl Hc)
    as (listed1 & Hl1 & Hc1).
  fold db1 in Hl1. fold c1 in Hc1.
  assert (discharge_patient request path db1 = Ok (mkResponse 200 None, db1)
          ∨ discharge_patient request path db1 = Raise PermissionDenied
          ∨ discharge_patient request path db1 = Raise ValidationError) as Hagain.
  { unfold PatientConsultationViewSet.discharge_patient.
    rewrite (get_object_listed "discharge_patient" request db1 listed1 c1 path);
      [|by rewrite Hexts|done|done|done].
    destruct (has_object_permission _ _ c1); simpl; [|by auto].
    destruct (is_valid c1 _); [|by auto]. left.
    unfold c1, db1. by rewrite save_discharged_again. }
  exists db1. repeat split; try done.
  - unfold PatientConsultationViewSet.discharge_patient.
    rewrite (get_object_listed "discharge_patient" request db listed c path) by done.
    rewrite Hperm. simpl. by rewrite Hvalid.
  - intros k v Hk. unfold c1. simpl. by apply lookup_union_Some_l.
  - by apply Hrest.
  - by apply Hrest.
  - by exists listed1.
  - by destruct Hagain as [->|[->| ->]].
Qed.

(** ** Which paths apply the predicate *)


End Views.
End Properties.

(** * The properties on the sample data *)

Lemma superuser_matches_every_consultation_witness :
  consultation_3 ∈
    PatientConsultationViewSet.get_queryset
      sample_TYPE_VALUE_MAP sample_accessible_facilities
      (request_of superuser) sample_db.
Proof.
  apply (superuser_matches_every_consultation
           sample_TYPE_VALUE_MAP sample_accessible_facilities
           (request_of superuser) sample_db consultation_3).
  - reflexivity.
  - compute_done.
Defined.

Lemma state_tier_matches_by_state_witness :
  consultation_1 ∈
    PatientConsultationViewSet.get_queryset
      sample_TYPE_VALUE_MAP sample_accessible_facilities
      (request_of state_admin) sample_db
  ↔ patient__facility__state consultation_1 = Some 10.
Proof.
  apply (state_tier_matches_by_state
           sample_TYPE_VALUE_MAP sample_accessible_facilities
           (request_of state_admin) sample_db consultation_1).
  - reflexivity.
  - compute_done.
  - compute_done.
Defined.

Lemma district_tier_matches_by_district_witness :
  consultation_2 ∈
    PatientConsultationViewSet.get_queryset
      sample_TYPE_VALUE_MAP sample_accessible_facilities
      (request_of district_admin) sample_db
  ↔ patient__facility__district consultation_2 = Some 100.
Proof.
  apply (district_tier_matches_by_district
           sample_TYPE_VALUE_MAP sample_accessible_facilities
           (request_of district_admin) sample_db consultation_2).
  - reflexivity.
  - compute_done.
  - compute_done.
  - compute_done.
Defined.

Lemma general_user_matches_by_facility_witness :
  consultation_3 ∉
    PatientConsultationViewSet.get_queryset
      sample_TYPE_VALUE_MAP sample_accessible_facilities
      (request_of nurse) sample_db.
Proof.
  apply (general_user_matches_by_facility
           sample_TYPE_VALUE_MAP sample_accessible_facilities
           ltac:(compute_done)
           (request_of nurse) sample_db consultation_3).
  - reflexivity.
  - compute_done.
  - compute_done.
  - reflexivity.
  - compute_done.
Defined.

Lemma patient_assignment_is_not_consulted_witness :
  with_patient_assigned_to consultation_3 (Some 4) ∉
    PatientConsultationViewSet.get_queryset
      sample_TYPE_VALUE_MAP sample_accessible_facilities (request_of nurse)
      (consultations_only [with_patient_assigned_to consultation_3 (Some 4)]).
Proof.
  apply (patient_assignment_is_not_consulted
           sample_TYPE_VALUE_MAP sample_accessible_facilities
           ltac:(compute_done)
           (request_of nurse) sample_db
           (consultations_only [with_patient_assigned_to consultation_3 (Some 4)])
           consultation_3 (Some 4)).
  - reflexivity.
  - compute_done.
  - compute_done.
  - compute_done.
  - compute_done.
  - reflexivity.
Defined.

Lemma consent_views_raise_on_malformed_identifier_witness :
  PatientConsentViewSet.list
    sample_TYPE_VALUE_MAP sample_accessible_facilities sample_to_python
    (request_of nurse) "not-a-uuid" sample_db
  = Raise DjangoValidationError
  ∧ PatientConsultationViewSet.retrieve
      sample_TYPE_VALUE_MAP sample_accessible_facilities (λ _ _ _, true) sample_to_python
      (request_of nurse) "not-a-uuid" sample_db
    = Raise Http404.
Proof.
  destruct (consent_views_raise_on_malformed_identifier
              sample_TYPE_VALUE_MAP sample_accessible_facilities sample_to_python
              (λ _ _ _, true) (λ _ _ _, true)
              (request_of nurse) "not-a-uuid" sample_db eq_refl)
    as (_ & _ & Hlist & _ & _ & Hsibling).
  split; [exact Hlist|].
  apply (Hsibling "retrieve" [consultation_1]). reflexivity.
Defined.

Lemma patient_from_asset_selects_most_recent_witness :
  ∃ beds,
    PatientConsultationViewSet.patient_from_asset sample_UPPER
      (mkRequest monitor_user None Absent None (Some "left") ∅) sample_db
    = Ok (mkResponse 200 (Some (mkPatientConsultationID uuid_pb uuid_c2 uuid_b4 beds)))
    ∧ AssetBed.mk 9 monitor bed_4 (Some "Left View") ∈ beds.
Proof.
  destruct (patient_from_asset_selects_most_recent sample_UPPER
              (mkRequest monitor_user None Absent None (Some "left") ∅)
              sample_db monitor eq_refl ltac:(compute_done) ltac:(compute_done))
    as [_ Hfound].
  destruct (Hfound (ConsultationBed.mk 5 bed_4 [7] None)) as [_ Hplaced].
  { split.
    - split; [compute_done|]. split; [reflexivity|]. left. compute_done.
    - intros y (Hy & _). apply elem_of_cons in Hy as [->|Hy]; [done|].
      by apply elem_of_nil in Hy. }
  destruct (Hplaced consultation_2) as (beds & Hresponse & Hbeds).
  { split.
    - split; [compute_done|]. split; reflexivity.
    - intros y (Hy & Hbed & _).
      apply elem_of_cons in Hy as [->|Hy]; [done|].
      apply elem_of_cons in Hy as [->|Hy]; [done|].
      apply elem_of_cons in Hy as [->|Hy]; [done|].
      by apply elem_of_nil in Hy. }
  exists beds. split; [exact Hresponse|].
  apply Hbeds. exists "left". repeat split; [done|compute_done].
Defined.

Lemma discharge_clears_bed_and_is_idempotent_witness :
  let request :=
    mkRequest superuser None Absent None None {["discharge_notes" := "home"]} in
  let discharge :=
    PatientConsultationViewSet.discharge_patient
      sample_TYPE_VALUE_MAP sample_accessible_facilities
      (λ _ _ _, true) (λ _ _, true) sample_to_python request uuid_c2 in
  ∃ db1,
    discharge sample_db = Ok (mkResponse 200 None, db1)
    ∧ discharged consultation_2 {["discharge_notes" := "home"]} ∈ consultations db1
    ∧ state_after (discharge db1) db1 = db1.
Proof.
  intros request discharge.
  destruct (discharge_clears_bed_and_is_idempotent
              sample_TYPE_VALUE_MAP sample_accessible_facilities sample_to_python
              (λ _ _ _, true) (λ _ _, true) request sample_db
              [consultation_3; consultation_2; consultation_1] consultation_2 uuid_c2
              ltac:(compute_done) ltac:(compute_done) eq_refl ltac:(compute_done)
              eq_refl eq_refl eq_refl)
    as (db1 & Hfirst & Hrow & _ & _ & _ & _ & Hagain & _).
  exists db1. split; [exact Hfirst|]. split; [exact Hrow|exact Hagain].
Defined.


(** * Further properties of the views *)

(** ** Order and content of the consultation list *)

Lemma StronglySorted_sublist {A} (R : relation A) (l k : list A) :
  l `sublist_of` k → StronglySorted R k → StronglySorted R l.
Proof.
  induction 1 as [|x l k Hsub IH|x l k Hsub IH]; intros Hsorted.
  - constructor.
  - apply StronglySorted_inv in Hsorted as [Hk Hall]. constructor; [by apply IH|].
    rewrite Forall_forall in *. intros y Hy. apply Hall.
    by eapply elem_of_sublist.
  - apply StronglySorted_inv in Hsorted as [Hk _]. by apply IH.
Qed.

Lemma get_queryset_sublist tvm gaf request db :
  PatientConsultationViewSet.get_queryset tvm gaf request db
  `sublist_of` PatientConsultationViewSet.queryset db.
Proof.
  unfold PatientConsultationViewSet.get_queryset, qs_filter.
  destruct (User.is_superuser _); [reflexivity|].
  repeat case_bool_decide; apply sublist_filter.
Qed.

(** X1. Whatever the user and the filter parameters, a consultation
    list that is answered is the newest-first table with rows left out:
    it is a sublist of the table ordered by descending primary key,
    hence itself in descending order of primary key, and it holds a row
    no more often than the table does. *)
Theorem consultation_list_is_newest_first
  (TYPE_VALUE_MAP : string → Z) (get_accessible_facilities : User.t → list Z)
  (to_python : string → option string) request db listed :
  PatientConsultationViewSet.list
    TYPE_VALUE_MAP get_accessible_facilities to_python request db = Ok listed →
  listed `sublist_of` PatientConsultationViewSet.queryset db
  ∧ StronglySorted (desc PatientConsultation.id) listed
  ∧ listed ⊆+ consultations db
  ∧ (length listed ≤ length (consultations db))%nat.
Proof.
  intros Hl.
  assert (listed `sublist_of` PatientConsultationViewSet.queryset db) as Hsub.
  { unfold PatientConsultationViewSet.list in Hl. etrans.
    - eapply filter_queryset_sublist. exact Hl.
    - apply get_queryset_sublist. }
  assert (listed ⊆+ consultations db) as Hmset.
  { etrans; [by apply sublist_submseteq|]. apply order_by_desc_submseteq. }
  repeat split; [done| |done|by apply submseteq_length].
  eapply StronglySorted_sublist; [done|]. apply order_by_desc_sorted.
Qed.

(** ** What decides visibility *)

(** X2. Enlarging the accessible facilities of the users never hides a
    consultation: a row in the query set built with one resolver is in
    the query set built with any resolver that answers with at least the
    same facilities. *)
Theorem more_accessible_facilities_show_more
  (TYPE_VALUE_MAP : string → Z) (gaf gaf' : User.t → list Z) request db c :
  (∀ f, f ∈ gaf (user request) → f ∈ gaf' (user request)) →
  c ∈ PatientConsultationViewSet.get_queryset TYPE_VALUE_MAP gaf request db →
  c ∈ PatientConsultationViewSet.get_queryset TYPE_VALUE_MAP gaf' request db.
Proof.
  intros Hmore. rewrite !elem_of_get_queryset. intros [Hc Hpred].
  split; [done|]. revert Hpred. unfold Spec.build_consultation_predicate.
  destruct (User.is_superuser _); [done|].
  destruct (bool_decide (TYPE_VALUE_MAP "StateLabAdmin" ≤ _)); [done|].
  destruct (bool_decide (TYPE_VALUE_MAP "DistrictLabAdmin" ≤ _)); [done|].
  rewrite !orb_true_iff, !andb_true_iff. intros [[Hactive Hin]|Hhome]; [|by right].
  left. split; [done|].
  destruct (patient__facility__id c) as [f|]; simpl in *; [|done].
  apply bool_decide_eq_true in Hin. apply bool_decide_eq_true. by apply Hmore.
Qed.

(** X3. Whether a consultation is in a user's query set is decided by
    three of its attributes: the activity of its patient, the facility
    of its patient and its own facility.  Two rows that agree on these
    are both in or both out, whatever their identifiers, assignment, bed
    placement and discharge fields. *)
Theorem visibility_reads_three_attributes
  (TYPE_VALUE_MAP : string → Z) (get_accessible_facilities : User.t → list Z)
  request db db' c c' :
  c ∈ consultations db →
  c' ∈ consultations db' →
  Patient.is_active (PatientConsultation.patient c)
  = Patient.is_active (PatientConsultation.patient c') →
  Patient.facility (PatientConsultation.patient c)
  = Patient.facility (PatientConsultation.patient c') →
  PatientConsultation.facility c = PatientConsultation.facility c' →
  (c ∈ PatientConsultationViewSet.get_queryset
         TYPE_VALUE_MAP get_accessible_facilities request db
   ↔ c' ∈ PatientConsultationViewSet.get_queryset
            TYPE_VALUE_MAP get_accessible_facilities request db').
Proof.
  intros Hc Hc' Hactive Hfacility Hown. rewrite !elem_of_get_queryset.
  unfold Spec.build_consultation_predicate, patient__facility__state,
    patient__facility__district, patient__facility__id, patient__is_active.
  rewrite Hactive, Hfacility, Hown. tauto.
Qed.

(** X4. A tier user without a scope.  For a user at or above
    StateLabAdmin whose state is null, the query set holds exactly the
    consultations whose patient has no facility or a facility without
    state; with a state set, it holds exactly those whose patient has a
    facility in that state, so none of a patient without facility.  The
    same holds of the district for a user at or above DistrictLabAdmin
    and below StateLabAdmin. *)
Theorem tier_user_with_null_scope
  (TYPE_VALUE_MAP : string → Z) (get_accessible_facilities : User.t → list Z)
  request db c :
  User.is_superuser (user request) = false →
  c ∈ consultations db →
  let visible :=
    c ∈ PatientConsultationViewSet.get_queryset
          TYPE_VALUE_MAP get_accessible_facilities request db in
  let patient_facility := Patient.facility (PatientConsultation.patient c) in
  (TYPE_VALUE_MAP "StateLabAdmin" ≤ User.user_type (user request) →
   (User.state (user request) = None →
    (visible ↔
     patient_facility = None
     ∨ ∃ f, patient_facility = Some f ∧ Facility.state f = None))
   ∧ (∀ s, User.state (user request) = Some s →
      (visible ↔ ∃ f, patient_facility = Some f ∧ Facility.state f = Some s)))
  ∧ (TYPE_VALUE_MAP "DistrictLabAdmin" ≤ User.user_type (user request) →
     User.user_type (user request) < TYPE_VALUE_MAP "StateLabAdmin" →
     (User.district (user request) = None →
      (visible ↔
       patient_facility = None
       ∨ ∃ f, patient_facility = Some f ∧ Facility.district f = None))
     ∧ (∀ s, User.district (user request) = Some s →
        (visible ↔ ∃ f, patient_facility = Some f ∧ Facility.district f = Some s))).
Proof.
  intros Hsuper Hc visible patient_facility. subst visible patient_facility.
  split.
  - intros Hstate.
    split; [intros Hnull|intros s Hset]; rewrite elem_of_get_queryset;
      unfold Spec.build_consultation_predicate, patient__facility__state;
      rewrite Hsuper, bool_decide_true by done; rewrite bool_decide_eq_true.
    + rewrite Hnull, bind_None. tauto.
    + rewrite Hset, bind_Some. tauto.
  - intros Hdistrict Hstate.
    split; [intros Hnull|intros s Hset]; rewrite elem_of_get_queryset;
      unfold Spec.build_consultation_predicate, patient__facility__district;
      rewrite Hsuper, bool_decide_false by lia; rewrite bool_decide_true by done;
      rewrite bool_decide_eq_true.
    + rewrite Hnull, bind_None. tauto.
    + rewrite Hset, bind_Some. tauto.
Qed.

(** ** Resolving one consultation *)

Section Resolving.
Variable TYPE_VALUE_MAP : string → Z.
Variable get_accessible_facilities : User.t → list Z.
Variable has_object_permission : string → User.t → PatientConsultation.t → bool.
Variable is_valid : PatientConsultation.t → gmap string string → bool.
Variable to_python : string → option string.

Abbreviation list_of :=
  (PatientConsultationViewSet.list TYPE_VALUE_MAP get_accessible_facilities to_python).
Abbreviation get_object :=
  (PatientConsultationViewSet.get_object
     TYPE_VALUE_MAP get_accessible_facilities has_object_permission to_python).
Abbreviation discharge_patient :=
  (PatientConsultationViewSet.discharge_patient
     TYPE_VALUE_MAP get_accessible_facilities has_object_permission is_valid to_python).

(** With unique identifiers and a list that is answered, either the
    path value names no listed row and [get_object] raises the 404
    exception, or it names exactly one and the object check decides. *)
Lemma get_object_cases action request path db l :
  NoDup (PatientConsultation.external_id <$> consultations db) →
  list_of request db = Ok l →
  ((∀ c, c ∈ l → ¬ names to_python path c)
   ∧ get_object action request path db = Raise Http404)
  ∨ ∃ c, c ∈ l ∧ names to_python path c
         ∧ (∀ c', c' ∈ l → names to_python path c' → c' = c)
         ∧ get_object action request path db
           = if has_object_permission action (user request) c then Ok c
             else Raise PermissionDenied.
Proof.
  intros Hdup Hl.
  assert (NoDup (PatientConsultation.external_id <$> l)) as Hdup'.
  { eapply submseteq_NoDup_fmap; [|done].
    by apply (consultation_list_submseteq
                TYPE_VALUE_MAP get_accessible_facilities to_python request). }
  destruct (to_python path) as [value|] eqn:Hpath.
  - destruct (qs_filter (λ c, bool_decide (PatientConsultation.external_id c = value)) l)
      as [|c rest] eqn:Hfilter.
    + left. split.
      * intros c Hc Hnames. unfold names in Hnames. rewrite Hpath in Hnames.
        injection Hnames as ->.
        assert (c ∈ qs_filter
                      (λ r, bool_decide (PatientConsultation.external_id r
                                         = PatientConsultation.external_id c)) l) as Hin.
        { apply elem_of_qs_filter. by rewrite bool_decide_eq_true. }
        rewrite Hfilter in Hin. by apply elem_of_nil in Hin.
      * unfold PatientConsultationViewSet.get_object.
        fold (list_of request db). rewrite Hl. simpl. by rewrite Hpath, Hfilter.
    + right. exists c.
      assert (c ∈ qs_filter
                    (λ c, bool_decide (PatientConsultation.external_id c = value)) l)
        as Hin by (rewrite Hfilter; left).
      apply elem_of_qs_filter in Hin as [Hext Hc]. apply bool_decide_eq_true in Hext.
      assert (names to_python path c) as Hnames by (unfold names; by rewrite Hext).
      split; [done|]. split; [done|]. split.
      * intros c' Hc' Hnames'. unfold names in Hnames, Hnames'.
        apply (key_unique_inj PatientConsultation.external_id l); [done..|congruence].
      * by apply (get_object_listed
                    TYPE_VALUE_MAP get_accessible_facilities to_python
                    has_object_permission action request db l).
  - left. split.
    + intros c _. unfold names. by rewrite Hpath.
    + unfold PatientConsultationViewSet.get_object.
      fold (list_of request db). rewrite Hl. simpl. by rewrite Hpath.
Qed.

(** X5. [get_object] has four kinds of outcome, and each tells what was
    found.  It raises what [filter_queryset] raises: the validation
    error of the REST framework for a [facility] parameter that is no
    number, else the validation error of the field for a [patient]
    parameter that is no UUID.  Otherwise, with unique identifiers: it
    answers with a row exactly when the row is listed for the requester,
    is named by the path value and passes the object check; it raises
    PermissionDenied exactly when such a listed row fails the object
    check; and it raises the 404 exception exactly when the path value
    names no listed row, so a hidden consultation, a missing one and a
    path value that is no UUID are answered alike, whatever the object
    check says. *)
Theorem get_object_outcomes action request path db :
  NoDup (PatientConsultation.external_id <$> consultations db) →
  (∀ e, list_of request db = Raise e ↔
        (params_facility request = Invalid ∧ e = ValidationError)
        ∨ (params_facility request ≠ Invalid
           ∧ (∃ p, params_patient request = Some p ∧ to_python p = None)
           ∧ e = DjangoValidationError))
  ∧ (∀ e, list_of request db = Raise e → get_object action request path db = Raise e)
  ∧ (∀ listed, list_of request db = Ok listed →
       (∀ c, get_object action request path db = Ok c ↔
             c ∈ listed ∧ names to_python path c
             ∧ has_object_permission action (user request) c = true)
       ∧ (get_object action request path db = Raise PermissionDenied ↔
          ∃ c, c ∈ listed ∧ names to_python path c
               ∧ has_object_permission action (user request) c = false)
       ∧ (get_object action request path db = Raise Http404 ↔
          ∀ c, c ∈ listed → ¬ names to_python path c)).
Proof.
  intros Hdup. split; [|split].
  - intros e. apply filter_queryset_Raise.
  - intros e He. unfold PatientConsultationViewSet.get_object.
    fold (list_of request db). by rewrite He.
  - intros listed Hl.
    destruct (get_object_cases action request path db listed Hdup Hl)
      as [[Hnone Hget]|(c & Hc & Hpath & Huniq & Hget)]; rewrite Hget.
    + split; [|split].
      * intros c. split; [done|]. intros (Hc & Hpath & _). by destruct (Hnone c).
      * split; [done|]. intros (c & Hc & Hpath & _). by destruct (Hnone c).
      * done.
    + split; [|split].
      * intros c'. split.
        -- destruct (has_object_permission action (user request) c) eqn:Hperm; [|done].
           by intros [= <-].
        -- intros (Hc' & Hpath' & Hperm). rewrite <- (Huniq c' Hc' Hpath').
           by rewrite Hperm.
      * split.
        -- destruct (has_object_permission action (user request) c) eqn:Hperm; [done|].
           intros _. by exists c.
        -- intros (c' & Hc' & Hpath' & Hperm). rewrite <- (Huniq c' Hc' Hpath').
           by rewrite Hperm.
      * split.
        -- by destruct (has_object_permission action (user request) c).
        -- intros Hnone. by destruct (Hnone c).
Qed.

(** X7. [discharge_patient] turns a request down in a fixed order:
    with what [filter_queryset] raises for a filter parameter that is no
    number or no UUID; else, with unique identifiers, with the 404
    exception when the path value names no listed row, whatever the
    object check and the payload; else with PermissionDenied when the
    object check fails, whatever the payload; else with ValidationError
    when the payload is not valid.  It succeeds only past all of these,
    and then with status 200 and no content. *)
Theorem discharge_refusals_in_order request path db :
  NoDup (PatientConsultation.external_id <$> consultations db) →
  (∀ e, list_of request db = Raise e → discharge_patient request path db = Raise e)
  ∧ (∀ listed, list_of request db = Ok listed →
       ((∀ c, c ∈ listed → ¬ names to_python path c) →
        discharge_patient request path db = Raise Http404)
       ∧ (∀ c, c ∈ listed → names to_python path c →
               has_object_permission "discharge_patient" (user request) c = false →
               discharge_patient request path db = Raise PermissionDenied)
       ∧ (∀ c, c ∈ listed → names to_python path c →
               has_object_permission "discharge_patient" (user request) c = true →
               is_valid c (data request) = false →
               discharge_patient request path db = Raise ValidationError)
       ∧ (∀ r db1, discharge_patient request path db = Ok (r, db1) →
                   r = mkResponse 200 None
                   ∧ ∃ c, c ∈ listed ∧ names to_python path c
                          ∧ has_object_permission "discharge_patient" (user request) c
                            = true
                          ∧ is_valid c (data request) = true)).
Proof.
  intros Hdup. unfold PatientConsultationViewSet.discharge_patient.
  fold (get_object "discharge_patient" request path db). split.
  { intros e He. unfold PatientConsultationViewSet.get_object.
    fold (list_of request db). by rewrite He. }
  intros listed Hl.
  destruct (get_object_cases "discharge_patient" request path db listed Hdup Hl)
    as [[Hnone Hget]|(c & Hc & Hpath & Huniq & Hget)]; rewrite Hget; simpl.
  - repeat split; try done.
    + intros c Hc Hpath. by destruct (Hnone c).
    + intros c Hc Hpath. by destruct (Hnone c).
  - split; [|split; [|split]].
    + intros Hnone. by destruct (Hnone c).
    + intros c' Hc' Hpath' Hperm. rewrite <- (Huniq c' Hc' Hpath'). by rewrite Hperm.
    + intros c' Hc' Hpath' Hperm Hvalid. rewrite <- (Huniq c' Hc' Hpath').
      rewrite Hperm. simpl. by rewrite Hvalid.
    + intros r db1.
      destruct (has_object_permission _ _ c) eqn:Hperm; simpl; [|done].
      destruct (is_valid c (data request)) eqn:Hvalid; [|done].
      intros [= <- <-]. split; [done|]. by exists c.
Qed.

End Resolving.

(** ** How the asset-to-patient lookup fails, and how it matches names *)


Lemma lower_empty_iff (p p' : string) : lower p = lower p' → (p = "" ↔ p' = "").
Proof. destruct p, p'; simpl; intros H; split; intros H'; congruence. Qed.

Lemma qs_filter_ext {A} (q q' : A → bool) (l : list A) :
  (∀ x, q x = q' x) → qs_filter q l = qs_filter q' l.
Proof.
  intros Heq. unfold qs_filter. apply list_filter_iff. intros x.
  by rewrite Heq.
Qed.

(** X9. The preset name of the request is matched without regard to
    case: when the [UPPER] of the database does not tell apart two texts
    that differ only in the case of their ASCII letters, two requests
    that differ only in the case of the ASCII letters of [preset_name]
    get the same answer from the lookup, the same asset beds
    included. *)
Theorem preset_name_case_is_ignored (UPPER : string → string) request db p p' :
  (∀ s s', lower s = lower s' → UPPER s = UPPER s') →
  lower p = lower p' →
  PatientConsultationViewSet.patient_from_asset UPPER (with_preset_name request p) db
  = PatientConsultationViewSet.patient_from_asset UPPER (with_preset_name request p') db.
Proof.
  intros Hfold Hlower. unfold PatientConsultationViewSet.patient_from_asset. simpl.
  destruct (User.asset (user request)) as [asset|]; [|done].
  destruct (first _) as [cb|]; [|done].
  destruct (first (qs_filter _ (order_by_desc PatientConsultation.id _)))
    as [c|]; [|done].
  do 4 f_equal.
  pose proof (lower_empty_iff p p' Hlower) as Hempty.
  repeat case_bool_decide; try tauto.
  apply qs_filter_ext. intros ab. f_equal. unfold icontains.
  destruct (AssetBed.meta__preset_name ab); [|done]. by rewrite (Hfold p p').
Qed.

(** ** The consent views *)

Section ConsentViews.
Variable TYPE_VALUE_MAP : string → Z.
Variable get_accessible_facilities : User.t → list Z.
Variable to_python : string → option string.

Abbreviation consents_of :=
  (PatientConsentViewSet.get_queryset TYPE_VALUE_MAP get_accessible_facilities to_python).
Abbreviation get_serializer_context :=
  (PatientConsentViewSet.get_serializer_context
     TYPE_VALUE_MAP get_accessible_facilities to_python).
Abbreviation consultation_obj :=
  (PatientConsentViewSet.get_consultation_obj
     TYPE_VALUE_MAP get_accessible_facilities to_python).

Lemma get_consultation_obj_found request path db c :
  consultation_obj request path db = Ok c →
  c ∈ consultations db ∧ names to_python path c.
Proof.
  intros Hobj.
  by apply get_consultation_obj_visible in Hobj as (Hc & Hpath & _).
Qed.

(** X10. A consent list is the consents of one consultation: when the
    list succeeds there is a consultation of the table that the path
    value names such that the list holds exactly the consents of the
    table whose parent it is and, when the request carries the
    [archived] parameter, whose [archived] flag has that value.  Consents
    of two consultations are never listed together. *)
Theorem consent_list_of_one_consultation request path db l :
  PatientConsentViewSet.list
    TYPE_VALUE_MAP get_accessible_facilities to_python request path db
  = Ok l →
  ∃ c, c ∈ consultations db
       ∧ names to_python path c
       ∧ ∀ k, k ∈ l ↔
              k ∈ consents db
              ∧ PatientConsent.consultation k = PatientConsultation.id c
              ∧ ∀ a, params_archived request = Some a → PatientConsent.archived k = a.
Proof.
  unfold PatientConsentViewSet.list, PatientConsentViewSet.get_queryset.
  destruct (consultation_obj request path db) as [c|e] eqn:Hobj; simpl; [|done].
  intros [= <-]. apply get_consultation_obj_found in Hobj as [Hc Hpath].
  exists c. split; [done|]. split; [done|]. intros k.
  unfold PatientConsentViewSet.filter_queryset.
  destruct (params_archived request) as [a|];
    rewrite ?elem_of_qs_filter, ?bool_decide_eq_true.
  - split.
    + intros (Ha & Hparent & Hk). repeat split; [done..|]. by intros ? [= <-].
    + intros (Hk & Hparent & Ha). auto.
  - split.
    + intros (Hparent & Hk). repeat split; [done..|]. by intros ? [=].
    + intros (Hk & Hparent & _). auto.
Qed.

(** X11. The serializer context and the consent query set resolve the
    same consultation: one raises exactly when the other does, with the
    same exception; and when the context is built it keeps the request
    of the generic view and carries, under ["consultation"], a
    consultation that the path value names and whose consents are
    exactly the query set. *)
Theorem serializer_context_names_the_listed_consultation request path db :
  (∀ e, get_serializer_context request path db = Raise e ↔
        consents_of request path db = Raise e)
  ∧ (∀ context, get_serializer_context request path db = Ok context →
       context !! "request" = Some (RequestValue request)
       ∧ ∃ c l,
           context !! "consultation" = Some (ConsultationValue c)
           ∧ names to_python path c
           ∧ c ∈ consultations db
           ∧ consents_of request path db = Ok l
           ∧ ∀ k, k ∈ l ↔
                  k ∈ consents db
                  ∧ PatientConsent.consultation k = PatientConsultation.id c).
Proof.
  unfold PatientConsentViewSet.get_serializer_context,
    PatientConsentViewSet.get_queryset.
  destruct (consultation_obj request path db) as [c|e'] eqn:Hobj; simpl.
  - split; [done|]. intros context [= <-].
    apply get_consultation_obj_found in Hobj as [Hc Hpath].
    split; [by rewrite lookup_insert_ne, lookup_insert_eq|].
    exists c. eexists. split; [by rewrite lookup_insert_eq|].
    split; [done|]. split; [done|]. split; [reflexivity|].
    intros k. rewrite elem_of_qs_filter, bool_decide_eq_true. tauto.
  - split; [|by intros context].
    intros e. split; by intros [= ->].
Qed.

End ConsentViews.

(** ** The further properties on the sample data *)

Lemma upper_ascii_lower_ascii a : upper_ascii (lower_ascii a) = upper_ascii a.
Proof. destruct a as [[] [] [] [] [] [] [] []]; reflexivity. Qed.

Lemma sample_UPPER_lower s : sample_UPPER (lower s) = sample_UPPER s.
Proof.
  induction s as [|a s IH]; [done|]. simpl.
  by rewrite upper_ascii_lower_ascii, IH.
Qed.

Lemma sample_UPPER_folds_ascii s s' :
  lower s = lower s' → sample_UPPER s = sample_UPPER s'.
Proof.
  intros H. by rewrite <- (sample_UPPER_lower s), H, sample_UPPER_lower.
Qed.

Lemma consultation_list_is_newest_first_witness :
  [consultation_3; consultation_2] `sublist_of`
    PatientConsultationViewSet.queryset sample_db
  ∧ StronglySorted (desc PatientConsultation.id) [consultation_3; consultation_2].
Proof.
  destruct (consultation_list_is_newest_first
              sample_TYPE_VALUE_MAP sample_accessible_facilities sample_to_python
              (mkRequest superuser None (Valid 2) None None ∅) sample_db
              [consultation_3; consultation_2] eq_refl)
    as (Hsub & Hsorted & _).
  split; [exact Hsub|exact Hsorted].
Defined.

Lemma more_accessible_facilities_show_more_witness :
  consultation_1 ∈
    PatientConsultationViewSet.get_queryset
      sample_TYPE_VALUE_MAP (λ _, [1; 2]) (request_of nurse) sample_db.
Proof.
  apply (more_accessible_facilities_show_more
           sample_TYPE_VALUE_MAP sample_accessible_facilities (λ _, [1; 2])
           (request_of nurse) sample_db consultation_1).
  - intros f Hf. change (f ∈ [1]) in Hf.
    apply list_elem_of_singleton in Hf as ->. compute_done.
  - compute_done.
Defined.

Lemma visibility_reads_three_attributes_witness :
  consultation_2 ∈
    PatientConsultationViewSet.get_queryset
      sample_TYPE_VALUE_MAP sample_accessible_facilities
      (request_of district_admin) sample_db
  ↔ discharged consultation_2 ∅ ∈
      PatientConsultationViewSet.get_queryset
        sample_TYPE_VALUE_MAP sample_accessible_facilities
        (request_of district_admin) (consultations_only [discharged consultation_2 ∅]).
Proof.
  apply (visibility_reads_three_attributes
           sample_TYPE_VALUE_MAP sample_accessible_facilities
           (request_of district_admin) sample_db
           (consultations_only [discharged consultation_2 ∅])
           consultation_2 (discharged consultation_2 ∅)).
  - compute_done.
  - compute_done.
  - reflexivity.
  - reflexivity.
  - reflexivity.
Defined.

Lemma tier_user_with_null_scope_witness :
  let c := PatientConsultation.mk 4 "c0000000-0000-4000-8000-000000000004"
             (Patient.mk "a0000000-0000-4000-8000-00000000000d" true None None)
             (Some 1) None None ∅ in
  let request := request_of (User.mk 6 false 40 None None None None) in
  c ∈ PatientConsultationViewSet.get_queryset
        sample_TYPE_VALUE_MAP sample_accessible_facilities request
        (consultations_only [c]).
Proof.
  intros c request.
  destruct (tier_user_with_null_scope
              sample_TYPE_VALUE_MAP sample_accessible_facilities request
              (consultations_only [c]) c eq_refl ltac:(compute_done))
    as [Hstate _].
  destruct Hstate as [Hnull _]; [compute_done|].
  apply Hnull; [reflexivity|]. by left.
Defined.

Lemma get_object_outcomes_witness :
  PatientConsultationViewSet.get_object
    sample_TYPE_VALUE_MAP sample_accessible_facilities (λ _ _ _, true) sample_to_python
    "retrieve" (request_of nurse) uuid_c2 sample_db
  = Raise Http404.
Proof.
  destruct (get_object_outcomes
              sample_TYPE_VALUE_MAP sample_accessible_facilities (λ _ _ _, true)
              sample_to_python
              "retrieve" (request_of nurse) uuid_c2 sample_db ltac:(compute_done))
    as (_ & _ & Hlisted).
  apply (Hlisted [consultation_1] eq_refl).
  intros c Hc. apply list_elem_of_singleton in Hc as ->. by vm_compute.
Defined.

Lemma discharge_refusals_in_order_witness :
  PatientConsultationViewSet.discharge_patient
    sample_TYPE_VALUE_MAP sample_accessible_facilities (λ _ _ _, false) (λ _ _, false)
    sample_to_python (request_of nurse) uuid_c1 sample_db
  = Raise PermissionDenied.
Proof.
  destruct (discharge_refusals_in_order
              sample_TYPE_VALUE_MAP sample_accessible_facilities
              (λ _ _ _, false) (λ _ _, false) sample_to_python
              (request_of nurse) uuid_c1 sample_db ltac:(compute_done))
    as (_ & Hlisted).
  destruct (Hlisted [consultation_1] eq_refl) as (_ & Hdenied & _).
  apply (Hdenied consultation_1); [compute_done|reflexivity|reflexivity].
Defined.


Lemma preset_name_case_is_ignored_witness :
  PatientConsultationViewSet.patient_from_asset sample_UPPER
    (with_preset_name (request_of monitor_user) "LEFT view") sample_db
  = PatientConsultationViewSet.patient_from_asset sample_UPPER
      (with_preset_name (request_of monitor_user) "left View") sample_db.
Proof.
  apply (preset_name_case_is_ignored sample_UPPER
           (request_of monitor_user) sample_db "LEFT view" "left View").
  - exact sample_UPPER_folds_ascii.
  - reflexivity.
Defined.

Lemma consent_list_of_one_consultation_witness :
  ∃ c, c ∈ consultations sample_db
       ∧ names sample_to_python uuid_c1 c
       ∧ ∀ k, k ∈ [PatientConsent.mk 1 uuid_k1 1 false] ↔
              k ∈ consents sample_db
              ∧ PatientConsent.consultation k = PatientConsultation.id c
              ∧ ∀ a, params_archived (request_of nurse) = Some a →
                     PatientConsent.archived k = a.
Proof.
  apply (consent_list_of_one_consultation
           sample_TYPE_VALUE_MAP sample_accessible_facilities sample_to_python
           (request_of nurse) uuid_c1 sample_db [PatientConsent.mk 1 uuid_k1 1 false]).
  reflexivity.
Defined.
